(** * The Volvo Cars integration: config-entry lifecycle hooks

    A shallow embedding of [custom_components/volvo_cars/__init__.py]:
    [async_setup_entry], [async_migrate_entry], [async_remove_entry],
    [_async_reset_request_count_if_missed] and [_remove_old_entities].

    The module is glue code over the Home Assistant runtime.  Its own
    control flow, its dictionary updates and its datetime arithmetic are
    embedded as written; every call that leaves the module (store manager,
    coordinators, API clients, platform forwarding) is recorded in a trace
    and its outcome is taken from the environment.  Constants the module
    imports from config_flow.py and const.py are parameters.  The
    [_LOGGER.debug] lines have no effect on the state and are left out. *)

From stdpp Require Import base gmap strings list.
From Stdlib Require Import ZArith Lia Ascii String.

Local Open Scope string_scope.
Local Open Scope Z_scope.
Local Open Scope list_scope.

(** ** Python values and exceptions *)

(** The values a config entry's [data] and [options] mappings hold. *)
Inductive value :=
| VNone
| VBool (b : bool)
| VInt (z : Z)
| VStr (s : string).

(** Exceptions the host framework defines to signal a failed setup. *)
Inductive HostException :=
| ConfigEntryNotReady
| ConfigEntryAuthFailed
| ConfigEntryError
| HomeAssistantError.

Inductive exn :=
| AssertionError
| AttributeError
| KeyError
| TypeError
| ValueError
| Host (e : HostException)
| OtherError (name : string).

Definition is_host_exception (e : exn) : bool :=
  match e with
  | Host _ => true
  | _ => false
  end.

(** ** [datetime] *)

(** An aware [datetime] carries its UTC offset (in microseconds) in
    [tzinfo]; a naive one has [tzinfo = None]. *)
Record datetime := {
  year : Z;
  month : Z;
  day : Z;
  hour : Z;
  minute : Z;
  second : Z;
  microsecond : Z;
  tzinfo : option Z;
}.

Record date := { date_year : Z; date_month : Z; date_day : Z }.

Record time := {
  time_hour : Z;
  time_minute : Z;
  time_second : Z;
  time_microsecond : Z;
  time_tzinfo : option Z;
}.

(** [timezone.utc] *)
Definition UTC : option Z := Some 0.

(** [datetime.combine(date, time)] *)
Definition combine (d : date) (t : time) : datetime :=
  {| year := date_year d; month := date_month d; day := date_day d;
     hour := time_hour t; minute := time_minute t; second := time_second t;
     microsecond := time_microsecond t; tzinfo := time_tzinfo t |}.

Definition is_leap (y : Z) : bool :=
  (y mod 4 =? 0) && (negb (y mod 100 =? 0) || (y mod 400 =? 0)).

(** Number of days before January 1st of year [y]. *)
Definition days_before_year (y : Z) : Z :=
  let y := y - 1 in y * 365 + y / 4 - y / 100 + y / 400.

Definition days_in_month (y m : Z) : Z :=
  match m with
  | 1 => 31 | 2 => if is_leap y then 29 else 28 | 3 => 31 | 4 => 30
  | 5 => 31 | 6 => 30 | 7 => 31 | 8 => 31 | 9 => 30 | 10 => 31
  | 11 => 30 | 12 => 31 | _ => 0
  end.

(** Number of days in year [y] before the first day of month [m]. *)
Definition days_before_month (y m : Z) : Z :=
  match m with
  | 1 => 0 | 2 => 31 | 3 => 59 | 4 => 90 | 5 => 120 | 6 => 151
  | 7 => 181 | 8 => 212 | 9 => 243 | 10 => 273 | 11 => 304 | 12 => 334
  | _ => 0
  end + (if (2 <? m) && is_leap y then 1 else 0).

(** Proleptic Gregorian ordinal: 0001-01-01 is day 1. *)
Definition ymd2ord (y m d : Z) : Z :=
  days_before_year y + days_before_month y m + d.

Definition DAY_US : Z := 86400 * 1000000.

(** Microseconds of the wall-clock reading since the start of day 0. *)
Definition wall_us (dt : datetime) : Z :=
  ymd2ord (year dt) (month dt) (day dt) * DAY_US
  + ((hour dt * 60 + minute dt) * 60 + second dt) * 1000000
  + microsecond dt.

(** The instant an aware datetime denotes, on the UTC time line. *)
Definition utc_instant (dt : datetime) : Z :=
  wall_us dt - default 0 (tzinfo dt).

Definition fields (dt : datetime) : list Z :=
  [year dt; month dt; day dt; hour dt; minute dt; second dt; microsecond dt].

(** Python's tuple comparison [a < b]. *)
Fixpoint tuple_lt (a b : list Z) : bool :=
  match a, b with
  | x :: a', y :: b' => if x =? y then tuple_lt a' b' else x <? y
  | [], _ :: _ => true
  | _, [] => false
  end.

(** [a < b] on datetimes: equal offsets (or two naive values) compare
    field by field; a naive and an aware value do not compare; otherwise
    the difference [a - b], which takes the offsets into account, decides. *)
Definition datetime_lt (a b : datetime) : exn + bool :=
  if decide (tzinfo a = tzinfo b) then inr (tuple_lt (fields a) (fields b))
  else match tzinfo a, tzinfo b with
       | Some oa, Some ob => inr (wall_us a - oa <? wall_us b - ob)
       | _, _ => inl TypeError
       end.

(** A month and a day of that month. *)
Definition valid_date (y m d : Z) : Prop :=
  1 <= m <= 12 /\ 1 <= d <= days_in_month y m.

(** What every [datetime] object satisfies by construction. *)
Definition valid_datetime (dt : datetime) : Prop :=
  1 <= year dt <= 9999 /\ 1 <= month dt <= 12 /\
  1 <= day dt <= days_in_month (year dt) (month dt) /\
  0 <= hour dt < 24 /\ 0 <= minute dt < 60 /\ 0 <= second dt < 60 /\
  0 <= microsecond dt < 1000000.

(** Microseconds since the midnight that starts the reading's day. *)
Definition time_of_day_us (dt : datetime) : Z :=
  ((hour dt * 60 + minute dt) * 60 + second dt) * 1000000 + microsecond dt.

(** The latest midnight at or before instant [t] on the UTC time line. *)
Definition utc_midnight_floor (t : Z) : Z := t - t mod DAY_US.

(** ** Objects of the integration *)

(** Objects of classes defined outside this module are identified by the
    constructor arguments this module passes to them. *)
Record VolvoCarsStoreManager := { store_unique_id : string }.

Record VolvoCarsDataCoordinator := {
  coordinator_entry_id : string;
  coordinator_store : VolvoCarsStoreManager;
}.

Record TokenCoordinator := {
  token_entry_id : string;
  token_store : VolvoCarsStoreManager;
}.

Record VolvoCarsData := {
  coordinator : VolvoCarsDataCoordinator;
  token_coordinator : TokenCoordinator;
  store : VolvoCarsStoreManager;
}.

(** A config entry.  [runtime_data] is an attribute that exists only
    while the entry is set up. *)
Record ConfigEntry := {
  entry_id : string;
  version : Z;
  minor_version : Z;
  unique_id : option string;
  data : gmap string value;
  options : gmap string value;
  runtime_data : option VolvoCarsData;
}.

(** The members of [Platform] this module names. *)
Inductive Platform := BINARY_SENSOR | SENSOR.

(** Calls that leave this module. *)
Inductive Call :=
| NewStoreManager (unique_id : string)
| StoreAsyncLoad (s : VolvoCarsStoreManager)
| StoreAsyncUpdate (s : VolvoCarsStoreManager) (access_token refresh_token : value)
| StoreAsyncRemove (s : VolvoCarsStoreManager)
| StoreData (s : VolvoCarsStoreManager)
| AsyncGetClientsession
| GetSetting (key : string)
| NewVolvoCarsApi
| NewVolvoCarsAuthApi
| NewTokenCoordinator (t : TokenCoordinator)
| AsyncScheduleRefresh (t : TokenCoordinator) (immediate : bool)
| NewDataCoordinator (c : VolvoCarsDataCoordinator)
| AsyncResetRequestCount (c : VolvoCarsDataCoordinator)
| AsyncConfigEntryFirstRefresh (c : VolvoCarsDataCoordinator)
| AsyncForwardEntrySetups
| AddUpdateListener
| AsyncTrackUtcTimeChange (c : VolvoCarsDataCoordinator) (hour minute second : Z)
| AsyncOnUnload.

(** The part of the running Home Assistant instance the module touches:
    the config entry being handled, the entity registry (as the set of
    registered entity ids), the calls made so far and the clock. *)
Record HomeAssistant := {
  config_entry : ConfigEntry;
  entity_registry : gset string;
  calls : list Call;
  utcnow : datetime;
}.

(** ** Computations: state plus exceptions *)

(** A computation runs on the instance and ends with a value or with a
    raised exception; the effects made before the exception stay. *)
Definition M (A : Type) : Type := HomeAssistant -> (exn + A) * HomeAssistant.

#[global] Instance M_ret : MRet M := fun A a h => (inr a, h).

#[global] Instance M_bind : MBind M := fun A B f m h =>
  match m h with
  | (inr a, h') => f a h'
  | (inl e, h') => (inl e, h')
  end.

Definition raise {A} (e : exn) : M A := fun h => (inl e, h).

Definition lift {A} (r : exn + A) : M A := fun h => (r, h).

Definition gets {A} (f : HomeAssistant -> A) : M A := fun h => (inr (f h), h).

Definition modify (f : HomeAssistant -> HomeAssistant) : M unit :=
  fun h => (inr tt, f h).

(** [assert x is not None] *)
Definition assert_not_none {A} (x : option A) : M A :=
  match x with
  | Some a => mret a
  | None => raise AssertionError
  end.

(** [for x in l: body(x)] *)
Fixpoint for_each {A} (l : list A) (body : A -> M unit) : M unit :=
  match l with
  | [] => mret tt
  | x :: l' => body x;; for_each l' body
  end.

(** ** Dictionaries *)

(** [d.pop(k)] *)
Definition dict_pop (k : string) (d : gmap string value)
  : exn + (value * gmap string value) :=
  match d !! k with
  | Some v => inr (v, delete k d)
  | None => inl KeyError
  end.

(** [k in d] *)
Definition dict_in (k : string) (d : gmap string value) : bool :=
  bool_decide (is_Some (d !! k)).

(** ** Host framework *)

(** [homeassistant.const] *)
Definition CONF_ACCESS_TOKEN : string := "access_token".
Definition CONF_PASSWORD : string := "password".

Definition with_config_entry (e : ConfigEntry) (h : HomeAssistant) : HomeAssistant :=
  {| config_entry := e; entity_registry := entity_registry h;
     calls := calls h; utcnow := utcnow h |}.

Definition with_entity_registry (r : gset string) (h : HomeAssistant) : HomeAssistant :=
  {| config_entry := config_entry h; entity_registry := r;
     calls := calls h; utcnow := utcnow h |}.

Definition record_call (c : Call) (h : HomeAssistant) : HomeAssistant :=
  {| config_entry := config_entry h; entity_registry := entity_registry h;
     calls := calls h ++ [c]; utcnow := utcnow h |}.

(** The entry with the fields [async_update_entry] is given stored on it. *)
Definition updated_entry (e : ConfigEntry) (new_data new_options : gmap string value)
    (new_version new_minor_version : Z) : ConfigEntry :=
  {| entry_id := entry_id e; version := new_version;
     minor_version := new_minor_version; unique_id := unique_id e;
     data := new_data; options := new_options; runtime_data := runtime_data e |}.

(** [hass.config_entries.async_update_entry(entry, data=, options=,
    version=, minor_version=)] *)
Definition async_update_entry (new_data new_options : gmap string value)
    (new_version new_minor_version : Z) : M unit :=
  modify (fun h =>
    with_config_entry
      (updated_entry (config_entry h) new_data new_options new_version
         new_minor_version) h).

(** [entry.runtime_data = d] *)
Definition set_runtime_data (d : VolvoCarsData) : M unit :=
  modify (fun h =>
    let e := config_entry h in
    with_config_entry
      {| entry_id := entry_id e; version := version e;
         minor_version := minor_version e; unique_id := unique_id e;
         data := data e; options := options e; runtime_data := Some d |} h).

(** [entry.runtime_data]: reading the attribute before it was set
    raises. *)
Definition get_runtime_data (e : ConfigEntry) : M VolvoCarsData :=
  match runtime_data e with
  | Some d => mret d
  | None => raise AttributeError
  end.

(** Entity registry: [er.async_get(entity_id)] *)
Definition er_async_get (entity_id : string) : M (option string) :=
  gets (fun h =>
    if decide (entity_id ∈ entity_registry h) then Some entity_id else None).

(** Entity registry: [er.async_remove(entity_id)] *)
Definition er_async_remove (entity_id : string) : M unit :=
  fun h =>
    if decide (entity_id ∈ entity_registry h) then
      (inr tt, with_entity_registry (entity_registry h ∖ {[entity_id]}) h)
    else (inl KeyError, h).

(** ** Specification vocabulary *)

(** The mapping left of [d] once both tokens (when both are there) and
    the password are gone. *)
Definition without_credentials (d : gmap string value) : gmap string value :=
  delete CONF_PASSWORD
    (if dict_in CONF_ACCESS_TOKEN d && dict_in "refresh_token" d
     then delete "refresh_token" (delete CONF_ACCESS_TOKEN d)
     else d).

(** Nothing in the migration of a version-1 entry raises: [runtime_data]
    is attached when the block for minor version 2 reads it, and when the
    tokens are moved the entry has a unique id and the store manager's
    calls return. *)
Definition migrates_without_fault (raises : Call -> option exn) (e : ConfigEntry) : Prop :=
  (minor_version e < 2 -> is_Some (runtime_data e)) /\
  (minor_version e < 3 ->
   dict_in CONF_ACCESS_TOKEN (data e) && dict_in "refresh_token" (data e) = true ->
   exists uid, unique_id e = Some uid /\
     raises (NewStoreManager uid) = None /\
     forall a r, raises (StoreAsyncUpdate {| store_unique_id := uid |} a r) = None).

(** The stored reset timestamp is one the missed-reset check handles
    without raising: absent, empty, or parsed to an aware datetime. *)
Definition reset_time_well_formed (fromisoformat : string -> option datetime)
    (t : option string) : Prop :=
  match t with
  | None => True
  | Some s => s = "" \/ exists dt off, fromisoformat s = Some dt /\ tzinfo dt = Some off
  end.

(** A computation all of whose exceptions satisfy [P]. *)
Definition raises_only {A} (P : exn -> Prop) (m : M A) : Prop :=
  forall h x h', m h = (inl x, h') -> P x.



(** Where an exception of [async_setup_entry] can come from, for an entry
    with unique id [uid] and stored reset timestamp [t]. *)
Definition setup_fault (fromisoformat : string -> option datetime)
    (raises : Call -> option exn) (t : option string) (x : exn) : Prop :=
  (exists c, raises c = Some x) \/
  (exists s, t = Some s /\ s <> "" /\
     ((x = ValueError /\ fromisoformat s = None) \/
      (x = TypeError /\ exists dt, fromisoformat s = Some dt /\ tzinfo dt = None))).

(** ** The module *)

Section VolvoCars.

(** [VolvoCarsFlowHandler.VERSION] and [.MINOR_VERSION] (config_flow.py). *)
Variable VERSION : Z.
Variable MINOR_VERSION : Z.

(** Constants of const.py. *)
Variable CONF_VCC_API_KEY : string.
Variable CONF_VIN : string.
Variable OPT_FUEL_CONSUMPTION_UNIT : string.
Variable OPT_UNIT_LITER_PER_100KM : string.

(** [get_entity_id] of entity.py. *)
Variable get_entity_id : VolvoCarsDataCoordinator -> Platform -> string -> string.

(** [datetime.fromisoformat]: [None] stands for the [ValueError] it
    raises on a string it does not accept. *)
Variable fromisoformat : string -> option datetime.

(** The environment: the exception, if any, a call that leaves the
    module ends with, and what [store.data["api_requests_reset_time"]]
    holds for a loaded store. *)
Variable raises : Call -> option exn.
Variable api_requests_reset_time : VolvoCarsStoreManager -> option string.

(** A call that leaves the module: it is recorded, then it returns or
    raises as the environment says. *)
Definition call (c : Call) : M unit := fun h =>
  match raises c with
  | Some e => (inl e, record_call c h)
  | None => (inr tt, record_call c h)
  end.

(** [VolvoCarsStoreManager(hass, unique_id)] *)
Definition new_store_manager (uid : string) : M VolvoCarsStoreManager :=
  call (NewStoreManager uid);;
  mret {| store_unique_id := uid |}.

(** [store.data["api_requests_reset_time"]] *)
Definition store_data_reset_time (s : VolvoCarsStoreManager) : M (option string) :=
  call (StoreData s);;
  mret (api_requests_reset_time s).

Definition old_entities : list (Platform * string) :=
  [ (BINARY_SENSOR, "availability");
    (BINARY_SENSOR, "front_left_door");
    (BINARY_SENSOR, "front_right_door");
    (BINARY_SENSOR, "rear_left_door");
    (BINARY_SENSOR, "rear_right_door");
    (BINARY_SENSOR, "front_left_tyre");
    (BINARY_SENSOR, "front_right_tyre");
    (BINARY_SENSOR, "rear_left_tyre");
    (BINARY_SENSOR, "rear_right_tyre");
    (BINARY_SENSOR, "front_left_window");
    (BINARY_SENSOR, "front_right_window");
    (BINARY_SENSOR, "rear_left_window");
    (BINARY_SENSOR, "rear_right_window");
    (SENSOR, "engine_hours_to_service") ].

Definition _remove_old_entities (coordinator : VolvoCarsDataCoordinator) : M unit :=
  for_each old_entities (fun old_entity =>
    let old_id := get_entity_id coordinator old_entity.1 old_entity.2 in
    entry ← er_async_get old_id;
    match entry with
    | Some entity_id => er_async_remove entity_id
    | None => mret tt
    end).

(** The block [if entry.minor_version < 2:] of [async_migrate_entry];
    it yields the updated [new_options]. *)
Definition migrate_minor_version_2 (entry : ConfigEntry)
    (new_options : gmap string value) : M (gmap string value) :=
  if minor_version entry <? 2 then
    let new_options :=
      <[OPT_FUEL_CONSUMPTION_UNIT := VStr OPT_UNIT_LITER_PER_100KM]> new_options in
    rd ← get_runtime_data entry;
    _remove_old_entities (coordinator rd);;
    mret new_options
  else mret new_options.

(** The block [if entry.minor_version < 3:] of [async_migrate_entry];
    it yields the updated [new_data]. *)
Definition migrate_minor_version_3 (entry : ConfigEntry)
    (new_data : gmap string value) : M (gmap string value) :=
  if minor_version entry <? 3 then
    new_data ←
      (if dict_in CONF_ACCESS_TOKEN new_data && dict_in "refresh_token" new_data then
         uid ← assert_not_none (unique_id entry);
         store ← new_store_manager uid;
         '(access_token, new_data) ← lift (dict_pop CONF_ACCESS_TOKEN new_data);
         '(refresh_token, new_data) ← lift (dict_pop "refresh_token" new_data);
         call (StoreAsyncUpdate store access_token refresh_token);;
         mret new_data
       else mret new_data);
    if dict_in CONF_PASSWORD new_data then
      '(_, new_data) ← lift (dict_pop CONF_PASSWORD new_data);
      mret new_data
    else mret new_data
  else mret new_data.

Definition async_migrate_entry : M bool :=
  entry ← gets config_entry;
  if VERSION <? version entry then
    (* the user has downgraded from a future version *)
    mret false
  else
    (if version entry =? 1 then
       (* new_data = {**entry.data}; new_options = {**entry.options} *)
       new_options ← migrate_minor_version_2 entry (options entry);
       new_data ← migrate_minor_version_3 entry (data entry);
       async_update_entry new_data new_options VERSION MINOR_VERSION
     else mret tt);;
    mret true.

Definition async_remove_entry : M unit :=
  entry ← gets config_entry;
  (* [entry.runtime_data] does not exist at this time: a new store
     manager is created to delete the storage data *)
  match unique_id entry with
  | Some uid =>
      if String.eqb uid "" then mret tt
      else
        store ← new_store_manager uid;
        call (StoreAsyncRemove store)
  | None => mret tt
  end.

Definition most_recent_midnight (now : datetime) : datetime :=
  combine
    {| date_year := year now; date_month := month now; date_day := day now |}
    {| time_hour := 0; time_minute := 0; time_second := 0;
       time_microsecond := 0; time_tzinfo := UTC |}.

Definition _async_reset_request_count_if_missed
    (last_reset_time : option string) (coordinator : VolvoCarsDataCoordinator)
  : M unit :=
  match last_reset_time with
  | None => mret tt
  | Some last_reset_time =>
      if String.eqb last_reset_time "" then mret tt
      else
        now ← gets utcnow;
        let most_recent_midnight := most_recent_midnight now in
        reset_time ← lift (match fromisoformat last_reset_time with
                           | Some dt => inr dt
                           | None => inl ValueError
                           end);
        missed ← lift (datetime_lt reset_time most_recent_midnight);
        if (missed : bool) then call (AsyncResetRequestCount coordinator)
        else mret tt
  end.

Definition async_setup_entry : M bool :=
  entry ← gets config_entry;
  (* load store *)
  uid ← assert_not_none (unique_id entry);
  store ← new_store_manager uid;
  call (StoreAsyncLoad store);;
  (* create APIs *)
  call AsyncGetClientsession;;
  call (GetSetting CONF_VIN);;
  call (GetSetting CONF_VCC_API_KEY);;
  call NewVolvoCarsApi;;
  call NewVolvoCarsAuthApi;;
  (* set up token refresh *)
  let token_coordinator := {| token_entry_id := entry_id entry; token_store := store |} in
  call (NewTokenCoordinator token_coordinator);;
  call (AsyncScheduleRefresh token_coordinator true);;
  (* set up data coordinator *)
  let coordinator :=
    {| coordinator_entry_id := entry_id entry; coordinator_store := store |} in
  call (NewDataCoordinator coordinator);;
  (* reset API count if the auto-reset was missed *)
  last_reset_time ← store_data_reset_time store;
  _async_reset_request_count_if_missed last_reset_time coordinator;;
  (* set up entry *)
  set_runtime_data
    {| coordinator := coordinator; token_coordinator := token_coordinator;
       store := store |};;
  call (AsyncConfigEntryFirstRefresh coordinator);;
  call AsyncForwardEntrySetups;;
  (* register events *)
  call AddUpdateListener;;
  call AsyncOnUnload;;
  call (AsyncTrackUtcTimeChange coordinator 0 0 0);;
  call AsyncOnUnload;;
  mret true.

(** The entry a version-1 entry is migrated to. *)
Definition migrated (e : ConfigEntry) : ConfigEntry :=
  updated_entry e
    (if minor_version e <? 3 then without_credentials (data e) else data e)
    (if minor_version e <? 2
     then <[OPT_FUEL_CONSUMPTION_UNIT := VStr OPT_UNIT_LITER_PER_100KM]> (options e)
     else options e)
    VERSION MINOR_VERSION.

End VolvoCars.

(** ** Sample environment for the examples *)

Module Sample.

(** A reader for the layout [datetime.isoformat()] writes at second
    resolution, [YYYY-MM-DDTHH:MM:SS] with an optional [+HH:MM] or
    [-HH:MM] offset.  It instantiates [fromisoformat] in the examples. *)
Definition digit (c : ascii) : option Z :=
  let n := Z.of_N (N_of_ascii c) in
  if (48 <=? n) && (n <=? 57) then Some (n - 48) else None.

Fixpoint digits (n : nat) (acc : Z) (l : list ascii) : option (Z * list ascii) :=
  match n, l with
  | O, _ => Some (acc, l)
  | S n', c :: l' => d ← digit c; digits n' (acc * 10 + d) l'
  | S _, [] => None
  end.

Definition expect (c : ascii) (l : list ascii) : option (list ascii) :=
  match l with
  | x :: l' => if Ascii.eqb x c then Some l' else None
  | [] => None
  end.

Definition offset (l : list ascii) : option (option Z) :=
  match l with
  | [] => Some None
  | s :: l =>
      sign ← (if Ascii.eqb s "+" then Some 1
              else if Ascii.eqb s "-" then Some (-1) else None);
      '(hh, l) ← digits 2 0 l;
      l ← expect ":" l;
      '(mm, l) ← digits 2 0 l;
      match l with
      | [] => if (hh <? 24) && (mm <? 60)
              then Some (Some (sign * ((hh * 60 + mm) * 60 * 1000000)))
              else None
      | _ :: _ => None
      end
  end.

Definition in_range (lo x hi : Z) : bool := (lo <=? x) && (x <=? hi).

Definition isoformat_seconds (s : string) : option datetime :=
  let l := list_ascii_of_string s in
  '(y, l) ← digits 4 0 l;
  l ← expect "-" l;
  '(m, l) ← digits 2 0 l;
  l ← expect "-" l;
  '(d, l) ← digits 2 0 l;
  l ← expect "T" l;
  '(hh, l) ← digits 2 0 l;
  l ← expect ":" l;
  '(mm, l) ← digits 2 0 l;
  l ← expect ":" l;
  '(ss, l) ← digits 2 0 l;
  tz ← offset l;
  if in_range 1 y 9999 && in_range 1 m 12 && in_range 1 d (days_in_month y m)
     && in_range 0 hh 23 && in_range 0 mm 59 && in_range 0 ss 59
  then Some {| year := y; month := m; day := d; hour := hh; minute := mm;
               second := ss; microsecond := 0; tzinfo := tz |}
  else None.

Definition no_fault : Call -> option exn := fun _ => None.

(** The first refresh of the data coordinator fails; nothing else does. *)
Definition first_refresh_not_ready (c : Call) : option exn :=
  match c with
  | AsyncConfigEntryFirstRefresh _ => Some (Host ConfigEntryNotReady)
  | _ => None
  end.

Definition entity_id_of (c : VolvoCarsDataCoordinator) (p : Platform) (key : string)
  : string :=
  (match p with BINARY_SENSOR => "binary_sensor" | SENSOR => "sensor" end)
  +:+ ".volvo_" +:+ coordinator_entry_id c +:+ "_" +:+ key.

Definition vin_store : VolvoCarsStoreManager := {| store_unique_id := "YV1XZ" |}.

Definition attached : VolvoCarsData :=
  {| coordinator := {| coordinator_entry_id := "e1"; coordinator_store := vin_store |};
     token_coordinator := {| token_entry_id := "e1"; token_store := vin_store |};
     store := vin_store |}.

Definition credentials : gmap string value :=
  {[ "vin" := VStr "YV1XZ"; "access_token" := VStr "at-1";
     "refresh_token" := VStr "rt-1"; "password" := VStr "secret" ]}.

Definition entry_at (v mv : Z) (uid : option string) (d : gmap string value)
    (rd : option VolvoCarsData) : ConfigEntry :=
  {| entry_id := "e1"; version := v; minor_version := mv; unique_id := uid;
     data := d; options := ∅; runtime_data := rd |}.

(** 2024-11-03 10:15:00 UTC *)
Definition clock : datetime :=
  {| year := 2024; month := 11; day := 3; hour := 10; minute := 15; second := 0;
     microsecond := 0; tzinfo := UTC |}.

Definition instance (e : ConfigEntry) : HomeAssistant :=
  {| config_entry := e;
     entity_registry :=
       {[ "binary_sensor.volvo_e1_availability"; "sensor.volvo_e1_odometer" ]};
     calls := [];
     utcnow := clock |}.

Definition stored (t : option string) : VolvoCarsStoreManager -> option string :=
  fun _ => t.

(** The module with a flow handler at version 1.3 and no failing call. *)
Definition migrate_1_3 : M bool :=
  async_migrate_entry 1 3 "fuel_consumption_unit" "l_100km" entity_id_of no_fault.

Definition setup_with (raises : Call -> option exn) (t : option string) : M bool :=
  async_setup_entry "vcc_api_key" "vin" isoformat_seconds raises (stored t).

Definition reset_check (last_reset_time : option string) : M unit :=
  _async_reset_request_count_if_missed isoformat_seconds no_fault last_reset_time
    (coordinator attached).

End Sample.

Import Sample.

(** * Properties *)

(** ** Calendar arithmetic *)

Lemma is_leap_year_length (y : Z) :
  days_before_year (y + 1) =
  days_before_year y + 365 + (if is_leap y then 1 else 0).
Proof.
  unfold days_before_year, is_leap.
  replace (y + 1 - 1) with y by lia.
  destruct (Z.eqb_spec (y mod 4) 0), (Z.eqb_spec (y mod 100) 0),
    (Z.eqb_spec (y mod 400) 0); simpl; Z.to_euclidean_division_equations; lia.
Qed.

Lemma days_before_year_mono (y1 y2 : Z) :
  y1 <= y2 -> days_before_year y1 <= days_before_year y2.
Proof.
  unfold days_before_year. intros.
  Z.to_euclidean_division_equations; lia.
Qed.

Lemma days_before_month_next (y m : Z) :
  1 <= m < 12 ->
  days_before_month y (m + 1) = days_before_month y m + days_in_month y m.
Proof.
  intros Hm.
  assert (m = 1 \/ m = 2 \/ m = 3 \/ m = 4 \/ m = 5 \/ m = 6 \/ m = 7 \/
          m = 8 \/ m = 9 \/ m = 10 \/ m = 11) as Hc by lia.
  unfold days_before_month, days_in_month.
  destruct (is_leap y);
    repeat (destruct Hc as [-> | Hc]; [reflexivity |]); subst; reflexivity.
Qed.

Lemma days_in_month_nonneg (y m : Z) : 0 <= days_in_month y m.
Proof.
  unfold days_in_month.
  destruct m as [| p | p]; try lia.
  destruct (is_leap y);
    do 4 (try destruct p as [p | p |]; try lia).
Qed.

Lemma days_before_month_mono (y m1 m2 : Z) :
  1 <= m1 -> m1 < m2 -> m2 <= 12 ->
  days_before_month y m1 + days_in_month y m1 <= days_before_month y m2.
Proof.
  intros H1 Hlt H2.
  assert (exists k : nat, m2 = m1 + 1 + Z.of_nat k) as [k ->].
  { exists (Z.to_nat (m2 - m1 - 1)). lia. }
  clear Hlt. induction k as [| k IH].
  - replace (m1 + 1 + Z.of_nat 0) with (m1 + 1) by lia.
    rewrite days_before_month_next; lia.
  - replace (m1 + 1 + Z.of_nat (S k)) with ((m1 + 1 + Z.of_nat k) + 1) by lia.
    rewrite days_before_month_next by lia.
    pose proof (days_in_month_nonneg y (m1 + 1 + Z.of_nat k)).
    assert (m1 + 1 + Z.of_nat k <= 12) by lia. lia.
Qed.

Lemma days_before_month_december (y : Z) :
  days_before_month y 12 + days_in_month y 12 =
  365 + (if is_leap y then 1 else 0).
Proof. unfold days_before_month, days_in_month. simpl. lia. Qed.

Lemma ymd2ord_bounds (y m d : Z) :
  valid_date y m d ->
  days_before_year y < ymd2ord y m d <= days_before_year (y + 1).
Proof.
  intros [Hm Hd]. unfold ymd2ord. rewrite is_leap_year_length.
  assert (0 <= days_before_month y m).
  { unfold days_before_month. destruct ((2 <? m) && is_leap y);
      destruct m as [| p | p]; try lia;
      do 4 (try destruct p as [p | p |]; try lia). }
  assert (days_before_month y m + days_in_month y m
          <= 365 + (if is_leap y then 1 else 0)).
  { destruct (Z.eq_dec m 12) as [-> | Hne].
    - rewrite days_before_month_december. lia.
    - rewrite <- days_before_month_december.
      pose proof (days_before_month_mono y m 12).
      pose proof (days_in_month_nonneg y 12). lia. }
  lia.
Qed.

(** The ordinal orders dates as the (year, month, day) triples do. *)
Lemma ymd2ord_lt (y1 m1 d1 y2 m2 d2 : Z) :
  valid_date y1 m1 d1 -> valid_date y2 m2 d2 ->
  tuple_lt [y1; m1; d1] [y2; m2; d2] = (ymd2ord y1 m1 d1 <? ymd2ord y2 m2 d2).
Proof.
  intros V1 V2.
  pose proof (ymd2ord_bounds _ _ _ V1) as B1.
  pose proof (ymd2ord_bounds _ _ _ V2) as B2.
  destruct V1 as [Hm1 Hd1], V2 as [Hm2 Hd2].
  simpl. destruct (Z.eqb_spec y1 y2) as [-> | Hy].
  - destruct (Z.eqb_spec m1 m2) as [-> | Hm].
    + destruct (Z.eqb_spec d1 d2) as [-> | Hd].
      * symmetry. apply Z.ltb_irrefl.
      * unfold ymd2ord. destruct (Z.ltb_spec d1 d2);
          symmetry; [apply Z.ltb_lt | apply Z.ltb_ge]; lia.
    + unfold ymd2ord. destruct (Z.ltb_spec m1 m2).
      * pose proof (days_before_month_mono y2 m1 m2).
        symmetry. apply Z.ltb_lt. lia.
      * pose proof (days_before_month_mono y2 m2 m1).
        symmetry. apply Z.ltb_ge. lia.
  - destruct (Z.ltb_spec y1 y2).
    + pose proof (days_before_year_mono (y1 + 1) y2).
      symmetry. apply Z.ltb_lt. lia.
    + pose proof (days_before_year_mono (y2 + 1) y1).
      symmetry. apply Z.ltb_ge. lia.
Qed.

Lemma valid_datetime_date (dt : datetime) :
  valid_datetime dt -> valid_date (year dt) (month dt) (day dt).
Proof. unfold valid_datetime, valid_date. tauto. Qed.

Lemma time_of_day_bounds (dt : datetime) :
  valid_datetime dt -> 0 <= time_of_day_us dt < DAY_US.
Proof. unfold valid_datetime, time_of_day_us, DAY_US. lia. Qed.

Lemma wall_us_split (dt : datetime) :
  wall_us dt = ymd2ord (year dt) (month dt) (day dt) * DAY_US + time_of_day_us dt.
Proof. unfold wall_us, time_of_day_us. lia. Qed.

(** Distinct dates have distinct ordinals. *)
Lemma ymd2ord_inj (y1 m1 d1 y2 m2 d2 : Z) :
  valid_date y1 m1 d1 -> valid_date y2 m2 d2 ->
  ymd2ord y1 m1 d1 = ymd2ord y2 m2 d2 -> y1 = y2 /\ m1 = m2 /\ d1 = d2.
Proof.
  intros V1 V2 E.
  pose proof (ymd2ord_lt _ _ _ _ _ _ V1 V2) as H12.
  pose proof (ymd2ord_lt _ _ _ _ _ _ V2 V1) as H21.
  rewrite E, Z.ltb_irrefl in H12, H21. simpl in H12, H21.
  destruct (Z.eqb_spec y1 y2), (Z.eqb_spec y2 y1); try lia;
    destruct (Z.eqb_spec m1 m2), (Z.eqb_spec m2 m1); try lia;
    destruct (Z.eqb_spec d1 d2), (Z.eqb_spec d2 d1); try lia.
Qed.

(** Two readings on different days are ordered as their days. *)
Lemma wall_order_days (oa ob ta tb : Z) :
  0 <= ta < DAY_US -> 0 <= tb < DAY_US -> oa <> ob ->
  (oa <? ob) = (oa * DAY_US + ta <? ob * DAY_US + tb).
Proof.
  intros Ha Hb Hne.
  destruct (Z.ltb_spec oa ob); symmetry; [apply Z.ltb_lt | apply Z.ltb_ge]; nia.
Qed.

(** Field-by-field comparison of two datetimes agrees with the order of
    their wall-clock readings. *)
Lemma tuple_lt_fields (a b : datetime) :
  valid_datetime a -> valid_datetime b ->
  tuple_lt (fields a) (fields b) = (wall_us a <? wall_us b).
Proof.
  intros Va Vb.
  pose proof (valid_datetime_date a Va) as Da.
  pose proof (valid_datetime_date b Vb) as Db.
  pose proof (ymd2ord_lt _ _ _ _ _ _ Da Db) as Hord.
  pose proof (ymd2ord_inj _ _ _ _ _ _ Da Db) as Hinj.
  pose proof (time_of_day_bounds a Va) as Ta.
  pose proof (time_of_day_bounds b Vb) as Tb.
  rewrite !wall_us_split.
  set (oa := ymd2ord (year a) (month a) (day a)) in *.
  set (ob := ymd2ord (year b) (month b) (day b)) in *.
  unfold fields. simpl in *. revert Hord.
  destruct (Z.eqb_spec (year a) (year b)) as [Ey | Ny].
  - destruct (Z.eqb_spec (month a) (month b)) as [Em | Nm].
    + destruct (Z.eqb_spec (day a) (day b)) as [Ed | Nd].
      * intros _. assert (oa = ob) as -> by (unfold oa, ob; congruence).
        unfold time_of_day_us in *.
        destruct Va as (_ & _ & _ & ? & ? & ? & ?).
        destruct Vb as (_ & _ & _ & ? & ? & ? & ?).
        destruct (Z.eqb_spec (hour a) (hour b));
          [destruct (Z.eqb_spec (minute a) (minute b));
           [destruct (Z.eqb_spec (second a) (second b));
            [destruct (Z.eqb_spec (microsecond a) (microsecond b)) |] |] |];
          repeat match goal with
                 | |- context [?x <? ?y] => destruct (Z.ltb_spec x y)
                 end; try reflexivity; unfold DAY_US in *; lia.
      * intros ->. apply wall_order_days; [assumption .. | tauto].
    + intros ->. apply wall_order_days; [assumption .. | tauto].
  - intros ->. apply wall_order_days; [assumption .. | tauto].
Qed.

(** On aware datetimes, [<] is the order of the instants they denote. *)
Lemma datetime_lt_aware (a b : datetime) (oa ob : Z) :
  valid_datetime a -> valid_datetime b ->
  tzinfo a = Some oa -> tzinfo b = Some ob ->
  datetime_lt a b = inr (utc_instant a <? utc_instant b).
Proof.
  intros Va Vb Ha Hb. unfold datetime_lt, utc_instant.
  rewrite Ha, Hb. destruct (decide (Some oa = Some ob)) as [E | N].
  - injection E as ->. rewrite tuple_lt_fields by assumption.
    cbn [default]. f_equal.
    destruct (Z.ltb_spec (wall_us a) (wall_us b));
      symmetry; [apply Z.ltb_lt | apply Z.ltb_ge]; lia.
  - reflexivity.
Qed.

Lemma datetime_lt_naive_aware (a b : datetime) (ob : Z) :
  tzinfo a = None -> tzinfo b = Some ob -> datetime_lt a b = inl TypeError.
Proof.
  intros Ha Hb. unfold datetime_lt. rewrite Ha, Hb.
  destruct (decide (None = Some ob)); [discriminate | reflexivity].
Qed.

Lemma most_recent_midnight_valid (now : datetime) :
  valid_datetime now -> valid_datetime (most_recent_midnight now).
Proof. unfold valid_datetime, most_recent_midnight. simpl. lia. Qed.

(** The datetime the module builds from the clock reading denotes the
    latest UTC midnight at or before that reading. *)
Lemma most_recent_midnight_instant (now : datetime) :
  valid_datetime now -> tzinfo now = UTC ->
  utc_instant (most_recent_midnight now) = utc_midnight_floor (utc_instant now).
Proof.
  intros V Htz. pose proof (time_of_day_bounds now V) as T.
  unfold utc_midnight_floor, utc_instant. rewrite Htz. simpl.
  rewrite !Z.sub_0_r, (wall_us_split now).
  set (o := ymd2ord (year now) (month now) (day now)).
  replace (wall_us (most_recent_midnight now)) with (o * DAY_US)
    by (unfold wall_us, most_recent_midnight, o; simpl; lia).
  rewrite Z.add_comm, Z.mod_add by (unfold DAY_US; lia).
  rewrite Z.mod_small by assumption. lia.
Qed.

(** ** Computations *)

Ltac run_step :=
  repeat progress
    (unfold mbind, M_bind, mret, M_ret, gets, lift, raise, modify,
       assert_not_none, get_runtime_data; cbn beta iota).

Lemma with_entity_registry_id (h : HomeAssistant) :
  with_entity_registry (entity_registry h) h = h.
Proof. destruct h; reflexivity. Qed.

Lemma difference_absent (x : string) (r s : gset string) :
  x ∉ r -> r ∖ s = r ∖ ({[x]} ∪ s).
Proof.
  intros Hx. apply set_eq. intros y.
  rewrite !elem_of_difference, elem_of_union, elem_of_singleton.
  split.
  - intros [Hy Hs]. split; [assumption |]. intros [-> | ?]; contradiction.
  - intros [Hy Hs]. split; [assumption |]. intros ?. apply Hs. right. assumption.
Qed.

Lemma dict_in_true (k : string) (d : gmap string value) :
  dict_in k d = true <-> is_Some (d !! k).
Proof. unfold dict_in. apply bool_decide_eq_true. Qed.

Lemma dict_in_false (k : string) (d : gmap string value) :
  dict_in k d = false <-> d !! k = None.
Proof.
  unfold dict_in. rewrite bool_decide_eq_false, eq_None_not_Some. reflexivity.
Qed.

Lemma dict_pop_Some (k : string) (v : value) (d : gmap string value) :
  d !! k = Some v -> dict_pop k d = inr (v, delete k d).
Proof. intros Hv. unfold dict_pop. rewrite Hv. reflexivity. Qed.

(** Popping a key when it is present, as the module does it for the
    password, is deleting that key. *)
Lemma pop_if_present (k : string) (d : gmap string value) (h : HomeAssistant) :
  (if dict_in k d
   then '(_, new_data) ← lift (dict_pop k d); mret new_data
   else mret d) h = (inr (delete k d), h).
Proof.
  destruct (dict_in k d) eqn:Hin.
  - apply dict_in_true in Hin as [v Hv]. run_step.
    rewrite (dict_pop_Some _ _ _ Hv). reflexivity.
  - apply dict_in_false in Hin. run_step. rewrite delete_id by assumption.
    reflexivity.
Qed.

Lemma update_entry_same (h : HomeAssistant) :
  let e := config_entry h in
  async_update_entry (data e) (options e) (version e) (minor_version e) h = (inr tt, h).
Proof. destruct h as [[] ? ? ?]. reflexivity. Qed.

Section Properties.

Variable VERSION : Z.
Variable MINOR_VERSION : Z.
Variable CONF_VCC_API_KEY : string.
Variable CONF_VIN : string.
Variable OPT_FUEL_CONSUMPTION_UNIT : string.
Variable OPT_UNIT_LITER_PER_100KM : string.
Variable get_entity_id : VolvoCarsDataCoordinator -> Platform -> string -> string.
Variable fromisoformat : string -> option datetime.
Variable raises : Call -> option exn.
Variable api_requests_reset_time : VolvoCarsStoreManager -> option string.

Lemma for_each_remove (c : VolvoCarsDataCoordinator) (l : list (Platform * string))
    (h : HomeAssistant) :
  for_each l (fun old_entity =>
    let old_id := get_entity_id c old_entity.1 old_entity.2 in
    entry ← er_async_get old_id;
    match entry with
    | Some entity_id => er_async_remove entity_id
    | None => mret tt
    end) h =
  (inr tt,
   with_entity_registry
     (entity_registry h ∖ list_to_set ((fun p => get_entity_id c p.1 p.2) <$> l)) h).
Proof.
  revert h. induction l as [| p l IH]; intros h.
  - simpl. run_step. f_equal. rewrite difference_empty_L.
    symmetry. apply with_entity_registry_id.
  - simpl. run_step. unfold er_async_get, er_async_remove. run_step.
    destruct (decide (get_entity_id c p.1 p.2 ∈ entity_registry h)) as [Hin | Hout].
    + destruct (decide (get_entity_id c p.1 p.2 ∈ entity_registry h)); [| done].
      rewrite IH. unfold with_entity_registry. simpl. do 2 f_equal.
      apply difference_difference_l_L.
    + rewrite IH. unfold with_entity_registry. simpl. do 2 f_equal.
      apply difference_absent. assumption.
Qed.

(** [_remove_old_entities] never raises: it drops the old entity ids
    from the registry and touches nothing else. *)
Lemma remove_old_entities_run (c : VolvoCarsDataCoordinator) (h : HomeAssistant) :
  _remove_old_entities get_entity_id c h =
  (inr tt,
   with_entity_registry
     (entity_registry h ∖
        list_to_set ((fun p => get_entity_id c p.1 p.2) <$> old_entities)) h).
Proof. apply for_each_remove. Qed.

(** *** The missed daily reset *)

Lemma reset_if_missed_parsed (s : string) (dt : datetime) (off : Z)
    (c : VolvoCarsDataCoordinator) (h : HomeAssistant) :
  s <> "" -> fromisoformat s = Some dt -> tzinfo dt = Some off ->
  valid_datetime dt -> valid_datetime (utcnow h) -> tzinfo (utcnow h) = UTC ->
  _async_reset_request_count_if_missed fromisoformat raises (Some s) c h =
  if utc_instant dt <? utc_midnight_floor (utc_instant (utcnow h))
  then call raises (AsyncResetRequestCount c) h
  else (inr tt, h).
Proof.
  intros Hs Hp Htz Vdt Vnow Hnow.
  unfold _async_reset_request_count_if_missed.
  destruct (String.eqb_spec s "") as [-> | _]; [done |].
  run_step. rewrite Hp.
  rewrite (datetime_lt_aware dt (most_recent_midnight (utcnow h)) off 0);
    [| assumption | apply most_recent_midnight_valid; assumption
     | assumption | reflexivity].
  rewrite most_recent_midnight_instant by assumption.
  destruct (utc_instant dt <? utc_midnight_floor (utc_instant (utcnow h)));
    reflexivity.
Qed.

Lemma reset_if_missed_unparsable (s : string) (c : VolvoCarsDataCoordinator)
    (h : HomeAssistant) :
  s <> "" -> fromisoformat s = None ->
  _async_reset_request_count_if_missed fromisoformat raises (Some s) c h =
  (inl ValueError, h).
Proof.
  intros Hs Hp. unfold _async_reset_request_count_if_missed.
  destruct (String.eqb_spec s "") as [-> | _]; [done |].
  run_step. rewrite Hp. reflexivity.
Qed.

(** A stored timestamp without an offset parses to a naive datetime,
    which does not compare with the aware midnight. *)
Lemma reset_if_missed_naive (s : string) (dt : datetime)
    (c : VolvoCarsDataCoordinator) (h : HomeAssistant) :
  s <> "" -> fromisoformat s = Some dt -> tzinfo dt = None ->
  _async_reset_request_count_if_missed fromisoformat raises (Some s) c h =
  (inl TypeError, h).
Proof.
  intros Hs Hp Htz. unfold _async_reset_request_count_if_missed.
  destruct (String.eqb_spec s "") as [-> | _]; [done |].
  run_step. rewrite Hp.
  rewrite (datetime_lt_naive_aware dt (most_recent_midnight (utcnow h)) 0);
    [reflexivity | assumption | reflexivity].
Qed.

Lemma reset_if_missed_falsy (t : option string) (c : VolvoCarsDataCoordinator)
    (h : HomeAssistant) :
  t = None \/ t = Some "" ->
  _async_reset_request_count_if_missed fromisoformat raises t c h = (inr tt, h).
Proof. intros [-> | ->]; reflexivity. Qed.

(** C4.  The missed daily reset is caught up.  For every non-empty
    stored reset timestamp that parses to an (aware) instant, with the
    clock read in UTC: when the instant lies strictly before the most
    recent UTC midnight, [_async_reset_request_count_if_missed] invokes
    the coordinator's request-count reset (the call is made, and the
    check ends as that call does); when it lies at or after that
    midnight, the check returns having invoked nothing. *)
Theorem reset_request_count_if_missed_correct (s : string) (dt : datetime)
    (off : Z) (c : VolvoCarsDataCoordinator) (h : HomeAssistant) :
  s <> "" -> fromisoformat s = Some dt -> tzinfo dt = Some off ->
  valid_datetime dt -> valid_datetime (utcnow h) -> tzinfo (utcnow h) = UTC ->
  let midnight := utc_midnight_floor (utc_instant (utcnow h)) in
  let r := _async_reset_request_count_if_missed fromisoformat raises (Some s) c h in
  (utc_instant dt < midnight ->
     calls r.2 = calls h ++ [AsyncResetRequestCount c] /\
     r.1 = from_option inl (inr tt) (raises (AsyncResetRequestCount c))) /\
  (midnight <= utc_instant dt -> r = (inr tt, h)).
Proof.
  intros Hs Hp Htz Vdt Vnow Hnow midnight r. subst r midnight.
  rewrite (reset_if_missed_parsed s dt off) by assumption.
  split; intros Hcmp.
  - apply Z.ltb_lt in Hcmp. rewrite Hcmp. unfold call.
    destruct (raises (AsyncResetRequestCount c)); simpl; auto.
  - apply Z.ltb_ge in Hcmp. rewrite Hcmp. reflexivity.
Qed.

(** *** Removing an entry *)

(** C9.  For every config entry whose unique_id is None or the empty
    string, [async_remove_entry] returns without raising and without any
    effect: no store manager is created, loaded or removed. *)
Theorem remove_entry_without_unique_id (h : HomeAssistant) :
  unique_id (config_entry h) = None \/ unique_id (config_entry h) = Some "" ->
  async_remove_entry raises h = (inr tt, h).
Proof.
  intros Hu. unfold async_remove_entry. run_step.
  destruct Hu as [-> | ->]; reflexivity.
Qed.

(** C7.  For every config entry with a non-None, non-empty unique_id,
    [async_remove_entry] creates a store manager keyed by the entry's
    unique_id and calls [async_remove] on it (the constructor
    returning); it makes no other call, leaves the entry and the entity
    registry alone, and ends as [async_remove] does. *)
Theorem remove_entry_removes_store (uid : string) (h : HomeAssistant) :
  unique_id (config_entry h) = Some uid -> uid <> "" ->
  raises (NewStoreManager uid) = None ->
  let r := async_remove_entry raises h in
  let store := {| store_unique_id := uid |} in
  calls r.2 = calls h ++ [NewStoreManager uid; StoreAsyncRemove store] /\
  config_entry r.2 = config_entry h /\
  entity_registry r.2 = entity_registry h /\
  r.1 = from_option inl (inr tt) (raises (StoreAsyncRemove store)).
Proof.
  intros Hu Hne Hnew r store. subst r store.
  unfold async_remove_entry, new_store_manager, call. run_step.
  rewrite Hu. destruct (String.eqb_spec uid "") as [-> | _]; [done |].
  rewrite Hnew. simpl.
  destruct (raises (StoreAsyncRemove _)); simpl;
    rewrite <- app_assoc; auto.
Qed.

(** The module's functions at the parameters of this section. *)
Abbreviation migrate :=
  (async_migrate_entry VERSION MINOR_VERSION OPT_FUEL_CONSUMPTION_UNIT
     OPT_UNIT_LITER_PER_100KM get_entity_id raises).
Abbreviation target :=
  (migrated VERSION MINOR_VERSION OPT_FUEL_CONSUMPTION_UNIT OPT_UNIT_LITER_PER_100KM).
Abbreviation minor_2 :=
  (migrate_minor_version_2 OPT_FUEL_CONSUMPTION_UNIT OPT_UNIT_LITER_PER_100KM
     get_entity_id).
Abbreviation old_ids c :=
  (list_to_set ((fun p : Platform * string => get_entity_id c p.1 p.2) <$> old_entities)
     : gset string).

Lemma minor_2_run (e : ConfigEntry) (o : gmap string value) (h : HomeAssistant) :
  minor_2 e o h =
  if minor_version e <? 2 then
    match runtime_data e with
    | Some rd =>
        (inr (<[OPT_FUEL_CONSUMPTION_UNIT := VStr OPT_UNIT_LITER_PER_100KM]> o),
         with_entity_registry (entity_registry h ∖ old_ids (coordinator rd)) h)
    | None => (inl AttributeError, h)
    end
  else (inr o, h).
Proof.
  unfold migrate_minor_version_2. destruct (minor_version e <? 2); [| reflexivity].
  unfold mbind at 1, M_bind at 1, get_runtime_data.
  destruct (runtime_data e) as [rd |]; [| reflexivity].
  run_step. rewrite remove_old_entities_run. reflexivity.
Qed.

(** Outcomes of the block for minor version 3. *)
Lemma minor_3_skipped (e : ConfigEntry) (d : gmap string value) (h : HomeAssistant) :
  3 <= minor_version e ->
  migrate_minor_version_3 raises e d h = (inr d, h).
Proof.
  intros Hm. unfold migrate_minor_version_3.
  destruct (Z.ltb_spec (minor_version e) 3); [lia | reflexivity].
Qed.

Lemma minor_3_no_tokens (e : ConfigEntry) (d : gmap string value) (h : HomeAssistant) :
  minor_version e < 3 ->
  dict_in CONF_ACCESS_TOKEN d && dict_in "refresh_token" d = false ->
  migrate_minor_version_3 raises e d h = (inr (without_credentials d), h).
Proof.
  intros Hm Hno. unfold migrate_minor_version_3, without_credentials.
  destruct (Z.ltb_spec (minor_version e) 3); [| lia].
  rewrite Hno. unfold mbind at 1, M_bind at 1. unfold mret at 1, M_ret at 1.
  apply pop_if_present.
Qed.

Lemma minor_3_tokens (e : ConfigEntry) (d : gmap string value) (h : HomeAssistant)
    (a r : value) :
  minor_version e < 3 ->
  d !! CONF_ACCESS_TOKEN = Some a -> d !! "refresh_token" = Some r ->
  migrate_minor_version_3 raises e d h =
  match unique_id e with
  | None => (inl AssertionError, h)
  | Some uid =>
      let store := {| store_unique_id := uid |} in
      match raises (NewStoreManager uid) with
      | Some x => (inl x, record_call (NewStoreManager uid) h)
      | None =>
          let h' := record_call (StoreAsyncUpdate store a r)
                      (record_call (NewStoreManager uid) h) in
          match raises (StoreAsyncUpdate store a r) with
          | Some x => (inl x, h')
          | None => (inr (without_credentials d), h')
          end
      end
  end.
Proof.
  intros Hm Ha Hr. unfold migrate_minor_version_3, without_credentials.
  destruct (Z.ltb_spec (minor_version e) 3); [| lia].
  assert (dict_in CONF_ACCESS_TOKEN d && dict_in "refresh_token" d = true) as ->.
  { apply andb_true_intro. split; apply dict_in_true; eauto. }
  assert (delete CONF_ACCESS_TOKEN d !! "refresh_token" = Some r) as Hr'.
  { rewrite lookup_delete_ne; [assumption | discriminate]. }
  unfold new_store_manager, call. run_step.
  destruct (unique_id e) as [uid |]; [| reflexivity].
  destruct (raises (NewStoreManager uid)); [reflexivity |].
  rewrite (dict_pop_Some _ _ _ Ha). cbn beta iota.
  rewrite (dict_pop_Some _ _ _ Hr'). cbn beta iota.
  destruct (raises (StoreAsyncUpdate _ a r)); [reflexivity |].
  apply pop_if_present.
Qed.

(** Whatever the outcome, the block for minor version 3 leaves the entry
    and the registry alone; when it returns, it returns the mapping
    without the credentials. *)
Lemma minor_3_frame (e : ConfigEntry) (d : gmap string value) (h : HomeAssistant) :
  let r := migrate_minor_version_3 raises e d h in
  config_entry r.2 = config_entry h /\
  entity_registry r.2 = entity_registry h /\
  forall d', r.1 = inr d' ->
    d' = if minor_version e <? 3 then without_credentials d else d.
Proof.
  destruct (Z.ltb_spec (minor_version e) 3) as [Hm | Hm].
  - destruct (dict_in CONF_ACCESS_TOKEN d && dict_in "refresh_token" d) eqn:Hboth.
    + apply andb_prop in Hboth as [[a Ha]%dict_in_true [r Hr]%dict_in_true].
      rewrite (minor_3_tokens e d h a r Hm Ha Hr).
      destruct (unique_id e) as [uid |]; cbn zeta;
        [destruct (raises (NewStoreManager uid));
         [| destruct (raises (StoreAsyncUpdate _ a r))] |];
        simpl; repeat split; congruence.
    + rewrite (minor_3_no_tokens e d h Hm Hboth). simpl.
      repeat split; congruence.
  - rewrite (minor_3_skipped e d h Hm). simpl. repeat split; congruence.
Qed.

(** *** Migration of a version-1 entry *)

Lemma migrate_downgrade (h : HomeAssistant) :
  VERSION < version (config_entry h) -> migrate h = (inr false, h).
Proof.
  intros Hv. unfold async_migrate_entry. run_step.
  destruct (Z.ltb_spec VERSION (version (config_entry h))); [reflexivity | lia].
Qed.

Lemma migrate_other_version (h : HomeAssistant) :
  version (config_entry h) <= VERSION -> version (config_entry h) <> 1 ->
  migrate h = (inr true, h).
Proof.
  intros Hv Hne. unfold async_migrate_entry. run_step.
  destruct (Z.ltb_spec VERSION (version (config_entry h))); [lia |].
  destruct (Z.eqb_spec (version (config_entry h)) 1); [lia | reflexivity].
Qed.

(** A version-1 entry: the run either raises and leaves the entry as it
    was, or returns [True] and leaves the migrated entry. *)
Lemma migrate_v1_outcome (h : HomeAssistant) :
  version (config_entry h) = 1 -> 1 <= VERSION ->
  let r := migrate h in
  (exists x, r.1 = inl x /\ config_entry r.2 = config_entry h) \/
  (r.1 = inr true /\ config_entry r.2 = target (config_entry h)).
Proof.
  intros Hv HV. unfold async_migrate_entry. run_step. rewrite Hv.
  destruct (Z.ltb_spec VERSION 1); [lia |]. change (1 =? 1) with true.
  cbn beta iota. rewrite minor_2_run. unfold migrated.
  set (e := config_entry h).
  destruct (minor_version e <? 2) eqn:Hm2.
  - destruct (runtime_data e) as [rd |] eqn:Hrd; [| left; eauto].
    match goal with
    | |- context [migrate_minor_version_3 raises ?e0 ?d ?h1] =>
        pose proof (minor_3_frame e0 d h1) as (Hc & _ & Hd);
        destruct (migrate_minor_version_3 raises e0 d h1) as [[x | d'] h2]
    end; simpl in *.
    + left. eauto.
    + right. rewrite (Hd d' eq_refl), Hc. split; reflexivity.
  - match goal with
    | |- context [migrate_minor_version_3 raises ?e0 ?d ?h1] =>
        pose proof (minor_3_frame e0 d h1) as (Hc & _ & Hd);
        destruct (migrate_minor_version_3 raises e0 d h1) as [[x | d'] h2]
    end; simpl in *.
    + left. eauto.
    + right. rewrite (Hd d' eq_refl), Hc. split; reflexivity.
Qed.

Lemma migrate_v1_returns (h h' : HomeAssistant) (b : bool) :
  version (config_entry h) = 1 -> 1 <= VERSION ->
  migrate h = (inr b, h') ->
  b = true /\ config_entry h' = target (config_entry h).
Proof.
  intros Hv HV Hrun.
  destruct (migrate_v1_outcome h Hv HV) as [(x & Hx & _) | [Hr Hc]];
    rewrite Hrun in *; simpl in *; [discriminate |].
  split; congruence.
Qed.

Lemma migrate_v1_total (h : HomeAssistant) :
  version (config_entry h) = 1 -> 1 <= VERSION ->
  migrates_without_fault raises (config_entry h) ->
  (migrate h).1 = inr true.
Proof.
  intros Hv HV [Hrd Htok]. unfold async_migrate_entry. run_step. rewrite Hv.
  destruct (Z.ltb_spec VERSION 1); [lia |]. change (1 =? 1) with true.
  cbn beta iota. rewrite minor_2_run.
  set (e := config_entry h) in *.
  assert (forall h1, exists d' h2,
             migrate_minor_version_3 raises e (data e) h1 = (inr d', h2)) as H3.
  { intros h1. destruct (Z.ltb_spec (minor_version e) 3) as [Hm | Hm].
    - destruct (dict_in CONF_ACCESS_TOKEN (data e) &&
                dict_in "refresh_token" (data e)) eqn:Hboth.
      + destruct (Htok Hm eq_refl) as (uid & Hu & Hnew & Hupd).
        apply andb_prop in Hboth as [[a Ha]%dict_in_true [r Hr]%dict_in_true].
        rewrite (minor_3_tokens e (data e) h1 a r Hm Ha Hr), Hu. cbn zeta.
        rewrite Hnew, Hupd. eauto.
      + rewrite (minor_3_no_tokens e (data e) h1 Hm Hboth). eauto.
    - rewrite (minor_3_skipped e (data e) h1 Hm). eauto. }
  destruct (Z.ltb_spec (minor_version e) 2) as [Hm2 | Hm2].
  - destruct (Hrd Hm2) as [rd ->].
    match goal with
    | |- context [migrate_minor_version_3 raises e (data e) ?h1] =>
        destruct (H3 h1) as (d' & h2 & ->)
    end. reflexivity.
  - destruct (H3 h) as (d' & h2 & ->). reflexivity.
Qed.

(** An entry already at the handler's version and minor version. *)
Lemma migrate_current (h : HomeAssistant) :
  VERSION <> 1 \/ 3 <= MINOR_VERSION ->
  version (config_entry h) = VERSION ->
  minor_version (config_entry h) = MINOR_VERSION ->
  migrate h = (inr true, h).
Proof.
  intros Hpar Hv Hm.
  destruct (Z.eq_dec VERSION 1) as [H1 | H1].
  - destruct Hpar as [? | Hmin]; [done |].
    unfold async_migrate_entry. run_step. rewrite Hv, H1.
    change (1 <? 1) with false. change (1 =? 1) with true. cbn beta iota.
    rewrite minor_2_run.
    destruct (Z.ltb_spec (minor_version (config_entry h)) 2); [lia |].
    rewrite minor_3_skipped by lia.
    rewrite <- H1, <- Hv, <- Hm, update_entry_same. reflexivity.
  - apply migrate_other_version; lia.
Qed.

(** *** Migration: the statements about [async_migrate_entry] *)

(** C1 (as amended).  For every config entry with version 1 and
    minor_version < 3 whose data holds both the access token and the
    refresh token and whose unique id is not None, provided the handler's
    VERSION is at least 1, [runtime_data] is attached when
    minor_version < 2 and the store manager's calls return:
    [async_migrate_entry] passes both token values to
    [store.async_update] on the store manager of the entry's unique id,
    leaves neither key in the entry's data (nor the password, and no
    other key is touched), and returns True. *)
Theorem migrate_moves_tokens_to_store (h : HomeAssistant) (uid : string)
    (a r : value) :
  let e := config_entry h in
  let store := {| store_unique_id := uid |} in
  1 <= VERSION -> version e = 1 -> minor_version e < 3 ->
  data e !! CONF_ACCESS_TOKEN = Some a -> data e !! "refresh_token" = Some r ->
  unique_id e = Some uid ->
  (minor_version e < 2 -> is_Some (runtime_data e)) ->
  raises (NewStoreManager uid) = None ->
  raises (StoreAsyncUpdate store a r) = None ->
  let res := migrate h in
  let new_data := data (config_entry res.2) in
  res.1 = inr true /\
  calls res.2 = calls h ++ [NewStoreManager uid; StoreAsyncUpdate store a r] /\
  new_data !! CONF_ACCESS_TOKEN = None /\
  new_data !! "refresh_token" = None /\
  forall k, k <> CONF_ACCESS_TOKEN -> k <> "refresh_token" -> k <> CONF_PASSWORD ->
    new_data !! k = data e !! k.
Proof.
  intros e store HV Hv Hm Ha Hr Hu Hrd Hnew Hupd res new_data.
  assert (dict_in CONF_ACCESS_TOKEN (data e) && dict_in "refresh_token" (data e)
          = true) as Hboth.
  { apply andb_true_intro. split; apply dict_in_true; eauto. }
  assert (res.1 = inr true /\
          calls res.2 = calls h ++ [NewStoreManager uid; StoreAsyncUpdate store a r] /\
          new_data = without_credentials (data e)) as (Hres & Hcalls & Hdata).
  { subst res new_data. unfold async_migrate_entry. run_step. fold e.
    rewrite Hv. destruct (Z.ltb_spec VERSION 1); [lia |].
    change (1 =? 1) with true. cbn beta iota. rewrite minor_2_run.
    destruct (Z.ltb_spec (minor_version e) 2) as [Hm2 | Hm2].
    - destruct (Hrd Hm2) as [rd ->].
      rewrite (minor_3_tokens e (data e) _ a r Hm Ha Hr), Hu. cbn zeta.
      fold store. rewrite Hnew, Hupd. simpl. rewrite <- app_assoc. auto.
    - rewrite (minor_3_tokens e (data e) _ a r Hm Ha Hr), Hu. cbn zeta.
      fold store. rewrite Hnew, Hupd. simpl. rewrite <- app_assoc. auto. }
  split; [assumption |]. split; [assumption |].
  rewrite Hdata. unfold without_credentials. rewrite Hboth.
  split; [| split].
  - rewrite lookup_delete_ne by discriminate.
    rewrite lookup_delete_ne by discriminate. apply lookup_delete_eq.
  - rewrite lookup_delete_ne by discriminate. apply lookup_delete_eq.
  - intros k Hk1 Hk2 Hk3. rewrite !lookup_delete_ne by congruence. reflexivity.
Qed.

(** C2 (as amended).  [async_migrate_entry] is idempotent.  Provided the
    handler's VERSION is not 1 or its MINOR_VERSION is at least 3: for
    every config entry whose version equals VERSION and whose
    minor_version equals MINOR_VERSION, running it returns True and
    changes nothing (data, options, version, minor_version, nor anything
    else); and every entry a successful run leaves behind is such that
    a second run returns True and changes nothing. *)
Theorem migrate_idempotent :
  let async_migrate_entry :=
    async_migrate_entry VERSION MINOR_VERSION OPT_FUEL_CONSUMPTION_UNIT
      OPT_UNIT_LITER_PER_100KM get_entity_id raises in
  VERSION <> 1 \/ 3 <= MINOR_VERSION ->
  (forall h : HomeAssistant,
     version (config_entry h) = VERSION ->
     minor_version (config_entry h) = MINOR_VERSION ->
     async_migrate_entry h = (inr true, h)) /\
  (forall h h1 : HomeAssistant,
     async_migrate_entry h = (inr true, h1) ->
     async_migrate_entry h1 = (inr true, h1)).
Proof.
  intros f Hpar. subst f. split; [intros h; apply migrate_current; assumption |].
  intros h h1 Hrun.
  destruct (Z.ltb_spec VERSION (version (config_entry h))) as [Hd | Hle].
  - rewrite migrate_downgrade in Hrun by assumption. discriminate.
  - destruct (Z.eq_dec (version (config_entry h)) 1) as [Hv | Hv].
    + apply migrate_v1_returns in Hrun as [_ Hc]; [| assumption | lia].
      apply migrate_current; [assumption | rewrite Hc; reflexivity ..].
    + rewrite migrate_other_version in Hrun by assumption.
      injection Hrun as <-. apply migrate_other_version; assumption.
Qed.

(** C3.  Migration is monotonic: [async_migrate_entry] never decreases
    an entry's version; and for every entry whose version is greater than
    VERSION it returns False and modifies nothing (in particular not the
    entry's data, options or version). *)
Theorem migrate_version_monotone (h : HomeAssistant) :
  let r := migrate h in
  version (config_entry h) <= version (config_entry r.2) /\
  (VERSION < version (config_entry h) -> r = (inr false, h)).
Proof.
  intros r. subst r. split; [| apply migrate_downgrade].
  destruct (Z.ltb_spec VERSION (version (config_entry h))) as [Hd | Hle].
  - rewrite migrate_downgrade by assumption. simpl. lia.
  - destruct (Z.eq_dec (version (config_entry h)) 1) as [Hv | Hv].
    + destruct (migrate_v1_outcome h Hv) as [(x & _ & ->) | [_ ->]];
        [lia | lia | simpl; lia].
    + rewrite migrate_other_version by assumption. simpl. lia.
Qed.

(** C5.  For every config entry with version 1 and minor_version < 3
    whose data contains the password key (the handler's VERSION being at
    least 1): whenever [async_migrate_entry] completes, the password key
    is absent from the entry's data; and it does complete, returning
    True, when nothing in the migration raises. *)
Theorem migrate_drops_password (h : HomeAssistant) :
  let e := config_entry h in
  1 <= VERSION -> version e = 1 -> minor_version e < 3 ->
  is_Some (data e !! CONF_PASSWORD) ->
  let r := migrate h in
  (forall b, r.1 = inr b -> data (config_entry r.2) !! CONF_PASSWORD = None) /\
  (migrates_without_fault raises e -> r.1 = inr true).
Proof.
  intros e HV Hv Hm _ r. split; [| apply migrate_v1_total; assumption].
  intros b Hb. destruct (migrate_v1_outcome h Hv HV) as [(x & Hx & _) | [_ Hc]];
    fold r in Hx || fold r in Hc; [congruence |].
  rewrite Hc. simpl. fold e.
  destruct (Z.ltb_spec (minor_version e) 3); [| lia].
  apply lookup_delete_eq.
Qed.

(** C6.  For every config entry with version 1 and minor_version < 2
    (the handler's VERSION being at least 1): whenever
    [async_migrate_entry] completes, the entry's options map
    OPT_FUEL_CONSUMPTION_UNIT to OPT_UNIT_LITER_PER_100KM; and it does
    complete, returning True, when nothing in the migration raises. *)
Theorem migrate_sets_fuel_consumption_unit (h : HomeAssistant) :
  let e := config_entry h in
  1 <= VERSION -> version e = 1 -> minor_version e < 2 ->
  let r := migrate h in
  (forall b, r.1 = inr b ->
     options (config_entry r.2) !! OPT_FUEL_CONSUMPTION_UNIT =
     Some (VStr OPT_UNIT_LITER_PER_100KM)) /\
  (migrates_without_fault raises e -> r.1 = inr true).
Proof.
  intros e HV Hv Hm r. split; [| apply migrate_v1_total; assumption].
  intros b Hb. destruct (migrate_v1_outcome h Hv HV) as [(x & Hx & _) | [_ Hc]];
    fold r in Hx || fold r in Hc; [congruence |].
  rewrite Hc. simpl. fold e.
  destruct (Z.ltb_spec (minor_version e) 2); [| lia].
  apply lookup_insert_eq.
Qed.

(** *** Setting up an entry *)

Abbreviation setup :=
  (async_setup_entry CONF_VCC_API_KEY CONF_VIN fromisoformat raises
     api_requests_reset_time).
Abbreviation reset_if_missed :=
  (_async_reset_request_count_if_missed fromisoformat raises).

Lemma raises_only_bind {A B} (P : exn -> Prop) (m : M A) (f : A -> M B) :
  raises_only P m -> (forall a, raises_only P (f a)) -> raises_only P (m ≫= f).
Proof.
  intros Hm Hf h x h'. unfold mbind, M_bind.
  destruct (m h) as [[y | a] h1] eqn:E.
  - intros [= <- _]. eapply Hm, E.
  - apply Hf.
Qed.

Lemma raises_only_ret {A} (P : exn -> Prop) (a : A) : raises_only P (mret a).
Proof. intros h x h'. unfold mret, M_ret. discriminate. Qed.

Lemma raises_only_gets {A} (P : exn -> Prop) (f : HomeAssistant -> A) :
  raises_only P (gets f).
Proof. intros h x h'. unfold gets. discriminate. Qed.

Lemma raises_only_modify (P : exn -> Prop) (f : HomeAssistant -> HomeAssistant) :
  raises_only P (modify f).
Proof. intros h x h'. unfold modify. discriminate. Qed.

Lemma raises_only_call (P : exn -> Prop) (c : Call) :
  (forall c x, raises c = Some x -> P x) -> raises_only P (call raises c).
Proof.
  intros HP h x h'. unfold call.
  destruct (raises c) as [y |] eqn:E; [| discriminate].
  intros [= <- _]. eapply HP, E.
Qed.

Lemma raises_only_reset_if_missed (P : exn -> Prop) (t : option string)
    (c : VolvoCarsDataCoordinator) :
  (forall c x, raises c = Some x -> P x) ->
  reset_time_well_formed fromisoformat t ->
  raises_only P (reset_if_missed t c).
Proof.
  intros HP Ht h x h'. unfold _async_reset_request_count_if_missed.
  destruct t as [s |]; [| discriminate].
  destruct (String.eqb_spec s "") as [-> | Hs]; [discriminate |].
  destruct Ht as [? | (dt & off & Hp & Htz)]; [done |].
  run_step. rewrite Hp. unfold datetime_lt. rewrite Htz.
  unfold most_recent_midnight at 1 2. simpl tzinfo. unfold UTC.
  destruct (decide (Some off = Some 0)).
  - destruct (tuple_lt _ _); [apply raises_only_call; assumption | discriminate].
  - destruct (_ <? _); [apply raises_only_call; assumption | discriminate].
Qed.

Lemma raises_only_store_data {B} (P : exn -> Prop) (s : VolvoCarsStoreManager)
    (f : option string -> M B) :
  (forall c x, raises c = Some x -> P x) ->
  raises_only P (f (api_requests_reset_time s)) ->
  raises_only P (store_data_reset_time raises api_requests_reset_time s ≫= f).
Proof.
  intros HP Hf h x h'. unfold store_data_reset_time, call. run_step.
  destruct (raises (StoreData s)) as [y |] eqn:E.
  - intros [= <- _]. eapply HP, E.
  - apply Hf.
Qed.

Lemma raises_only_new_store_manager {B} (P : exn -> Prop) (uid : string)
    (f : VolvoCarsStoreManager -> M B) :
  (forall c x, raises c = Some x -> P x) ->
  raises_only P (f {| store_unique_id := uid |}) ->
  raises_only P (new_store_manager raises uid ≫= f).
Proof.
  intros HP Hf h x h'. unfold new_store_manager, call. run_step.
  destruct (raises (NewStoreManager uid)) as [y |] eqn:E.
  - intros [= <- _]. eapply HP, E.
  - apply Hf.
Qed.

(** Every exception [async_setup_entry] raises on an entry with a unique
    id and a well-formed stored reset timestamp is one raised by a call
    that leaves the module. *)
Lemma setup_raises_only (P : exn -> Prop) (h : HomeAssistant) (uid : string) :
  (forall c x, raises c = Some x -> P x) ->
  unique_id (config_entry h) = Some uid ->
  reset_time_well_formed fromisoformat
    (api_requests_reset_time {| store_unique_id := uid |}) ->
  forall x h', setup h = (inl x, h') -> P x.
Proof.
  intros HP Hu Hwf x h'. unfold async_setup_entry.
  unfold mbind at 1, M_bind at 1, gets at 1.
  set (e := config_entry h) in *. clearbody e.
  rewrite Hu. unfold assert_not_none.
  unfold mbind at 1, M_bind at 1, mret at 1, M_ret at 1.
  revert h x h'. unfold set_runtime_data.
  apply raises_only_new_store_manager; [assumption |].
  repeat first
    [ apply raises_only_ret
    | apply raises_only_modify
    | apply raises_only_call; assumption
    | apply raises_only_reset_if_missed; assumption
    | apply raises_only_store_data; [assumption |]
    | apply raises_only_bind; [| intros ?] ].
Qed.

(** With no call raising and a well-formed stored timestamp, set-up
    returns [True] and attaches the runtime data. *)
Lemma setup_succeeds (h : HomeAssistant) (uid : string) :
  (forall c, raises c = None) ->
  unique_id (config_entry h) = Some uid ->
  reset_time_well_formed fromisoformat
    (api_requests_reset_time {| store_unique_id := uid |}) ->
  exists h', setup h = (inr true, h') /\
    is_Some (runtime_data (config_entry h')).
Proof.
  intros Hno Hu Hwf. unfold async_setup_entry.
  unfold new_store_manager, store_data_reset_time, set_runtime_data, call.
  run_step. rewrite Hu, !Hno. cbn beta iota.
  set (store := {| store_unique_id := uid |}) in *.
  match goal with
  | |- context [_async_reset_request_count_if_missed _ _ ?t ?c ?h1] =>
      assert (exists h2, _async_reset_request_count_if_missed fromisoformat raises
                           t c h1 = (inr tt, h2) /\
                         config_entry h2 = config_entry h) as (h2 & -> & Hc)
  end.
  { unfold _async_reset_request_count_if_missed.
    destruct (api_requests_reset_time store) as [s |]; [| eauto].
    destruct (String.eqb_spec s "") as [-> | Hs]; [eauto |].
    destruct Hwf as [? | (dt & off & Hp & Htz)]; [done |].
    run_step. rewrite Hp. unfold datetime_lt. rewrite Htz.
    unfold most_recent_midnight at 1 2. simpl tzinfo. unfold UTC, call.
    rewrite Hno.
    destruct (decide (Some off = Some 0));
      [destruct (tuple_lt _ _) | destruct (_ <? _)]; eauto. }
  rewrite ?Hno. eexists. split; [reflexivity |]. simpl. eauto.
Qed.

(** An unparsable stored timestamp makes set-up raise [ValueError]. *)
Lemma setup_unparsable (h : HomeAssistant) (uid s : string) :
  (forall c, raises c = None) ->
  unique_id (config_entry h) = Some uid ->
  api_requests_reset_time {| store_unique_id := uid |} = Some s ->
  s <> "" -> fromisoformat s = None ->
  (setup h).1 = inl ValueError.
Proof.
  intros Hno Hu Hst Hs Hp. unfold async_setup_entry.
  unfold new_store_manager, store_data_reset_time, set_runtime_data, call.
  run_step. rewrite Hu, !Hno. cbn beta iota. rewrite Hst.
  rewrite (reset_if_missed_unparsable s) by assumption.
  reflexivity.
Qed.

Lemma setup_without_unique_id (h : HomeAssistant) :
  unique_id (config_entry h) = None ->
  setup h = (inl AssertionError, h).
Proof.
  intros Hu. unfold async_setup_entry. run_step. rewrite Hu. reflexivity.
Qed.

(** C8 (as amended).  For every input whose entry has a non-None
    unique_id and whose stored reset timestamp is absent, empty or parses
    to an aware datetime: if the calls that leave the module raise only
    exceptions of the host framework, then every exception
    [async_setup_entry] raises is one of the host framework's. *)
Theorem setup_failure_is_host_exception (h : HomeAssistant) (uid : string)
    (x : exn) (h' : HomeAssistant) :
  unique_id (config_entry h) = Some uid ->
  reset_time_well_formed fromisoformat
    (api_requests_reset_time {| store_unique_id := uid |}) ->
  (forall c y, raises c = Some y -> is_host_exception y = true) ->
  setup h = (inl x, h') -> is_host_exception x = true.
Proof.
  intros Hu Hwf HP.
  apply (setup_raises_only (fun y => is_host_exception y = true) h uid);
    assumption.
Qed.

(** C10.  The parse of the stored reset timestamp is unguarded: on any
    non-empty string that [datetime.fromisoformat] rejects,
    [_async_reset_request_count_if_missed] raises ValueError; and so does
    [async_setup_entry] when the store holds such a string (the entry
    having a unique id and no call before the check failing). *)
Theorem reset_time_parse_unguarded (s : string) (c : VolvoCarsDataCoordinator)
    (h : HomeAssistant) :
  s <> "" -> fromisoformat s = None ->
  reset_if_missed (Some s) c h = (inl ValueError, h) /\
  forall uid,
    unique_id (config_entry h) = Some uid ->
    api_requests_reset_time {| store_unique_id := uid |} = Some s ->
    (forall c, raises c = None) ->
    (setup h).1 = inl ValueError.
Proof.
  intros Hs Hp. split; [apply reset_if_missed_unparsable; assumption |].
  intros uid Hu Hst Hno. apply (setup_unparsable h uid s); assumption.
Qed.

End Properties.

(** * Examples *)

(** Discharges a closed side condition by evaluation. *)
Ltac by_evaluation :=
  first
    [ reflexivity
    | discriminate
    | lia
    | let H := fresh in intros H; vm_compute in H; discriminate
    | vm_compute; first [reflexivity | discriminate | intros; discriminate]
    | eexists; vm_compute; reflexivity ].

Ltac valid_by_evaluation := unfold valid_datetime; cbn; lia.

(** C1: a 1.2 entry with both tokens and a unique id. *)
Lemma migrate_moves_tokens_to_store_witness :
  let h := instance (entry_at 1 2 (Some "YV1XZ") credentials None) in
  let res := migrate_1_3 h in
  res.1 = inr true /\
  calls res.2 =
    [NewStoreManager "YV1XZ"; StoreAsyncUpdate vin_store (VStr "at-1") (VStr "rt-1")] /\
  data (config_entry res.2) !! CONF_ACCESS_TOKEN = None /\
  data (config_entry res.2) !! "refresh_token" = None /\
  data (config_entry res.2) !! "vin" = Some (VStr "YV1XZ").
Proof.
  intros h res.
  pose proof (migrate_moves_tokens_to_store 1 3 "fuel_consumption_unit" "l_100km"
                entity_id_of no_fault h "YV1XZ" (VStr "at-1") (VStr "rt-1")) as T.
  cbv zeta in T.
  destruct T as (H1 & H2 & H3 & H4 & H5); [by_evaluation .. |].
  split; [exact H1 |]. split; [exact H2 |]. split; [exact H3 |].
  split; [exact H4 |].
  transitivity (data (config_entry h) !! "vin");
    [apply (H5 "vin"); discriminate | reflexivity].
Defined.

(** C1 as stated fails: the same entry without a unique id.  The
    hypotheses of the claim hold, and the migration raises. *)
Lemma migrate_tokens_without_unique_id :
  let e := entry_at 1 2 None credentials None in
  version e = 1 /\ minor_version e < 3 /\
  is_Some (data e !! CONF_ACCESS_TOKEN) /\ is_Some (data e !! "refresh_token") /\
  migrate_1_3 (instance e) = (inl AssertionError, instance e).
Proof. cbv zeta. repeat split; by_evaluation. Qed.

(** C2: an entry at 1.3 under a handler at 1.3. *)
Lemma migrate_idempotent_witness :
  let h := instance (entry_at 1 3 (Some "YV1XZ") credentials None) in
  migrate_1_3 h = (inr true, h).
Proof.
  intros h.
  apply (proj1 (migrate_idempotent 1 3 "fuel_consumption_unit" "l_100km"
                  entity_id_of no_fault (or_intror (Z.le_refl 3))));
    reflexivity.
Defined.

(** C2 as stated fails under a handler at 1.3: an entry at 1.2 has the
    handler's version, and the migration rewrites its data and its
    minor_version. *)
Lemma migrate_changes_entry_at_handler_version :
  let h := instance (entry_at 1 2 (Some "YV1XZ") credentials None) in
  let res := migrate_1_3 h in
  version (config_entry h) = 1 /\
  res.1 = inr true /\
  data (config_entry res.2) <> data (config_entry h) /\
  minor_version (config_entry res.2) <> minor_version (config_entry h).
Proof.
  cbv zeta. repeat split; by_evaluation.
Qed.

(** C3: an entry at 2.1 under a handler at 1.3. *)
Lemma migrate_version_monotone_witness :
  let h := instance (entry_at 2 1 (Some "YV1XZ") credentials None) in
  migrate_1_3 h = (inr false, h).
Proof.
  intros h.
  apply (proj2 (migrate_version_monotone 1 3 "fuel_consumption_unit" "l_100km"
                  entity_id_of no_fault h)).
  by_evaluation.
Defined.

(** C4: on 2024-11-03 10:15 UTC, a reset stamped one second before
    midnight is caught up, one stamped at midnight is not. *)
Lemma reset_request_count_if_missed_correct_witness :
  let h := instance (entry_at 1 3 (Some "YV1XZ") ∅ None) in
  calls (reset_check (Some "2024-11-02T23:59:59+00:00") h).2 =
    [AsyncResetRequestCount (coordinator attached)] /\
  reset_check (Some "2024-11-03T02:00:00+02:00") h = (inr tt, h).
Proof.
  intros h. split.
  - refine (proj1 (proj1 (reset_request_count_if_missed_correct isoformat_seconds
                            no_fault "2024-11-02T23:59:59+00:00"
                            {| year := 2024; month := 11; day := 2; hour := 23;
                               minute := 59; second := 59; microsecond := 0;
                               tzinfo := Some 0 |}
                            0 (coordinator attached) h _ _ _ _ _ _) _));
      try by_evaluation; valid_by_evaluation.
  - refine (proj2 (reset_request_count_if_missed_correct isoformat_seconds
                     no_fault "2024-11-03T02:00:00+02:00"
                     {| year := 2024; month := 11; day := 3; hour := 2;
                        minute := 0; second := 0; microsecond := 0;
                        tzinfo := Some 7200000000 |}
                     7200000000 (coordinator attached) h _ _ _ _ _ _) _);
      try by_evaluation; valid_by_evaluation.
Defined.

(** C5: a 1.2 entry that still carries the password. *)
Lemma migrate_drops_password_witness :
  let h := instance (entry_at 1 2 (Some "YV1XZ") credentials None) in
  data (config_entry (migrate_1_3 h).2) !! CONF_PASSWORD = None.
Proof.
  intros h.
  refine (proj1 (migrate_drops_password 1 3 "fuel_consumption_unit" "l_100km"
                   entity_id_of no_fault h _ _ _ _) true _);
    by_evaluation.
Defined.

(** C6: a 1.1 entry with its runtime data attached. *)
Lemma migrate_sets_fuel_consumption_unit_witness :
  let h := instance (entry_at 1 1 (Some "YV1XZ") credentials (Some attached)) in
  options (config_entry (migrate_1_3 h).2) !! "fuel_consumption_unit" =
  Some (VStr "l_100km").
Proof.
  intros h.
  refine (proj1 (migrate_sets_fuel_consumption_unit 1 3 "fuel_consumption_unit"
                   "l_100km" entity_id_of no_fault h _ _ _) true _);
    by_evaluation.
Defined.

(** C7: removing an entry with a unique id. *)
Lemma remove_entry_removes_store_witness :
  let h := instance (entry_at 1 3 (Some "YV1XZ") credentials None) in
  calls (async_remove_entry no_fault h).2 =
    [NewStoreManager "YV1XZ"; StoreAsyncRemove vin_store].
Proof.
  intros h.
  refine (proj1 (remove_entry_removes_store no_fault "YV1XZ" h _ _ _));
    by_evaluation.
Defined.

(** C8: the data coordinator's first refresh raises ConfigEntryNotReady. *)
Lemma setup_failure_is_host_exception_witness :
  let h := instance (entry_at 1 3 (Some "YV1XZ") ∅ None) in
  let r := setup_with first_refresh_not_ready (Some "2024-11-02T23:59:59+00:00") h in
  r.1 = inl (Host ConfigEntryNotReady) /\
  is_host_exception (Host ConfigEntryNotReady) = true.
Proof.
  intros h r. split; [by_evaluation |].
  refine (setup_failure_is_host_exception "vcc_api_key" "vin" isoformat_seconds
            first_refresh_not_ready (stored (Some "2024-11-02T23:59:59+00:00"))
            h "YV1XZ" (Host ConfigEntryNotReady) r.2 _ _ _ _).
  - reflexivity.
  - right. eexists _, _. vm_compute. split; reflexivity.
  - intros c y. destruct c; simpl; intros [= <-]. reflexivity.
  - vm_compute. reflexivity.
Defined.

(** C8 as stated fails: set-up of an entry without a unique id raises a
    bare AssertionError, and an unparsable stored timestamp a bare
    ValueError. *)
Lemma setup_raises_bare_exceptions :
  setup_with no_fault None (instance (entry_at 1 3 None ∅ None))
    = (inl AssertionError, instance (entry_at 1 3 None ∅ None)) /\
  (setup_with no_fault (Some "yesterday")
     (instance (entry_at 1 3 (Some "YV1XZ") ∅ None))).1 = inl ValueError /\
  is_host_exception AssertionError = false /\
  is_host_exception ValueError = false.
Proof. repeat split; by_evaluation. Qed.

(** C9: removing an entry whose unique id is the empty string. *)
Lemma remove_entry_without_unique_id_witness :
  let h := instance (entry_at 1 3 (Some "") credentials None) in
  async_remove_entry no_fault h = (inr tt, h).
Proof.
  intros h. apply remove_entry_without_unique_id. right. reflexivity.
Defined.

(** C10: a stored timestamp that is no ISO-8601 string. *)
Lemma reset_time_parse_unguarded_witness :
  let h := instance (entry_at 1 3 (Some "YV1XZ") ∅ None) in
  reset_check (Some "yesterday") h = (inl ValueError, h) /\
  (setup_with no_fault (Some "yesterday") h).1 = inl ValueError.
Proof.
  intros h.
  pose proof (reset_time_parse_unguarded "vcc_api_key" "vin" isoformat_seconds
                no_fault (stored (Some "yesterday")) "yesterday"
                (coordinator attached) h) as [H1 H2]; [by_evaluation .. |].
  split; [exact H1 |]. apply (H2 "YV1XZ"); reflexivity.
Defined.

(** * Further properties *)

Section Coverage.

Variable VERSION : Z.
Variable MINOR_VERSION : Z.
Variable CONF_VCC_API_KEY : string.
Variable CONF_VIN : string.
Variable OPT_FUEL_CONSUMPTION_UNIT : string.
Variable OPT_UNIT_LITER_PER_100KM : string.
Variable get_entity_id : VolvoCarsDataCoordinator -> Platform -> string -> string.
Variable fromisoformat : string -> option datetime.
Variable raises : Call -> option exn.
Variable api_requests_reset_time : VolvoCarsStoreManager -> option string.

(** *** [_remove_old_entities] *)

Lemma elem_of_registry_after_removal (c : VolvoCarsDataCoordinator)
    (reg : gset string) (id : string) :
  id ∈ reg ∖ list_to_set
             ((fun p : Platform * string => get_entity_id c p.1 p.2) <$> old_entities) <->
  id ∈ reg /\
  forall p key, (p, key) ∈ old_entities -> id <> get_entity_id c p key.
Proof.
  rewrite elem_of_difference, elem_of_list_to_set, list_elem_of_fmap.
  split; intros [Hin Hout]; (split; [assumption |]).
  - intros p key Hmem Hid. apply Hout. exists (p, key). auto.
  - intros ((p & key) & Hid & Hmem). exact (Hout p key Hmem Hid).
Qed.

(** X1.  [_remove_old_entities] never raises.  Afterwards an entity id is
    registered exactly when it was registered before and is not one of the
    ids [get_entity_id] gives for the old entities; the entry, the recorded
    calls and the clock are as before. *)
Theorem remove_old_entities_effect (c : VolvoCarsDataCoordinator)
    (h : HomeAssistant) :
  let r := _remove_old_entities get_entity_id c h in
  r.1 = inr tt /\
  config_entry r.2 = config_entry h /\
  calls r.2 = calls h /\
  utcnow r.2 = utcnow h /\
  forall id : string,
    id ∈ entity_registry r.2 <->
    id ∈ entity_registry h /\
    forall p key, (p, key) ∈ old_entities -> id <> get_entity_id c p key.
Proof.
  intros r. subst r. rewrite remove_old_entities_run. simpl.
  do 4 (split; [reflexivity |]).
  intros id. apply elem_of_registry_after_removal.
Qed.

(** X2.  Running [_remove_old_entities] a second time changes nothing. *)
Theorem remove_old_entities_idempotent (c : VolvoCarsDataCoordinator)
    (h : HomeAssistant) :
  let h1 := (_remove_old_entities get_entity_id c h).2 in
  _remove_old_entities get_entity_id c h1 = (inr tt, h1).
Proof.
  intros h1. subst h1. rewrite !remove_old_entities_run. simpl.
  unfold with_entity_registry. simpl. do 2 f_equal.
  apply set_eq. intros id. rewrite !elem_of_difference. tauto.
Qed.


(** *** [async_migrate_entry] *)

(** The module's functions at the parameters of this section. *)
Abbreviation migrate_entry :=
  (async_migrate_entry VERSION MINOR_VERSION OPT_FUEL_CONSUMPTION_UNIT
     OPT_UNIT_LITER_PER_100KM get_entity_id raises).

(** Splits a run on a version-1 entry into its outcomes: the block for
    minor version 2 finds the runtime data or not, the block for minor
    version 3 is skipped, finds no pair of tokens, or moves them, with the
    assertion and each store call passing or not. *)
Ltac migrate_v1_cases h Hv HV :=
  unfold async_migrate_entry; run_step; rewrite Hv;
  destruct (Z.ltb_spec VERSION 1); [lia |];
  change (1 =? 1) with true; cbn beta iota;
  rewrite (minor_2_run OPT_FUEL_CONSUMPTION_UNIT OPT_UNIT_LITER_PER_100KM get_entity_id);
  let e := fresh "e" in
  set (e := config_entry h) in *;
  let Hm2 := fresh "Hm2" in
  let Hrd := fresh "Hrd" in
  let rd := fresh "rd" in
  let Hm3 := fresh "Hm3" in
  let Hboth := fresh "Hboth" in
  let a := fresh "a" in
  let r := fresh "r" in
  let Ha := fresh "Ha" in
  let Hr := fresh "Hr" in
  let uid := fresh "uid" in
  let Hu := fresh "Hu" in
  let Hnew := fresh "Hnew" in
  let Hupd := fresh "Hupd" in
  destruct (Z.ltb_spec (minor_version e) 2) as [Hm2 | Hm2];
  [destruct (runtime_data e) as [rd |] eqn:Hrd |];
  try (destruct (Z.ltb_spec (minor_version e) 3) as [Hm3 | Hm3];
       [destruct (dict_in CONF_ACCESS_TOKEN (data e) &&
                  dict_in "refresh_token" (data e)) eqn:Hboth;
        [pose proof Hboth as [[a Ha]%dict_in_true [r Hr]%dict_in_true]%andb_prop;
         rewrite (minor_3_tokens raises e (data e) _ a r Hm3 Ha Hr);
         destruct (unique_id e) as [uid |] eqn:Hu; cbn zeta;
         [destruct (raises (NewStoreManager uid)) eqn:Hnew;
          [| destruct (raises (StoreAsyncUpdate {| store_unique_id := uid |} a r))
               eqn:Hupd] |]
        | rewrite (minor_3_no_tokens raises e (data e) _ Hm3 Hboth)]
       | rewrite (minor_3_skipped raises e (data e) _ Hm3)]);
  cbn [fst snd config_entry entity_registry calls utcnow with_entity_registry
       with_config_entry record_call async_update_entry modify].

(** X3.  The entry is updated all or nothing: whenever
    [async_migrate_entry] raises, the config entry (data, options, version,
    minor_version and the rest) is exactly as it was. *)
Theorem migrate_raise_leaves_entry (h h' : HomeAssistant) (x : exn) :
  migrate_entry h = (inl x, h') -> config_entry h' = config_entry h.
Proof.
  destruct (Z.ltb_spec VERSION (version (config_entry h))) as [Hd | Hle].
  - rewrite migrate_downgrade by assumption. discriminate.
  - destruct (Z.eq_dec (version (config_entry h)) 1) as [Hv | Hv].
    + assert (1 <= VERSION) as HV by lia. clear Hle.
      migrate_v1_cases h Hv HV; intros [= <- <-]; reflexivity.
    + rewrite migrate_other_version by assumption. discriminate.
Qed.


(** X4.  What [async_migrate_entry] can raise.  It raises only on a
    version-1 entry, and then the exception is AttributeError from reading
    the unset [runtime_data] (minor_version < 2), AssertionError from the
    missing unique id (minor_version < 3, both tokens in the data), or the
    exception one of its two store-manager calls ended with. *)
Theorem migrate_failure_modes (h h' : HomeAssistant) (x : exn) :
  migrate_entry h = (inl x, h') ->
  let e := config_entry h in
  version e = 1 /\
  ((x = AttributeError /\ minor_version e < 2 /\ runtime_data e = None) \/
   (x = AssertionError /\ minor_version e < 3 /\ unique_id e = None /\
    is_Some (data e !! CONF_ACCESS_TOKEN) /\ is_Some (data e !! "refresh_token")) \/
   (exists uid a r,
      minor_version e < 3 /\ unique_id e = Some uid /\
      data e !! CONF_ACCESS_TOKEN = Some a /\ data e !! "refresh_token" = Some r /\
      (raises (NewStoreManager uid) = Some x \/
       raises (StoreAsyncUpdate {| store_unique_id := uid |} a r) = Some x))).
Proof.
  intros Hrun e0. subst e0. revert Hrun.
  destruct (Z.ltb_spec VERSION (version (config_entry h))) as [Hd | Hle].
  { rewrite migrate_downgrade by assumption. discriminate. }
  destruct (Z.eq_dec (version (config_entry h)) 1) as [Hv | Hv].
  2: { rewrite migrate_other_version by assumption. discriminate. }
  assert (1 <= VERSION) as HV by lia. clear Hle.
  migrate_v1_cases h Hv HV; intros [= <- <-]; (split; [reflexivity |]);
    first
      [ left; repeat split; assumption
      | right; left; repeat split; eauto; lia
      | right; right; eexists _, _, _; repeat split; eauto; lia ].
Qed.

(** X5.  A version-1 entry below minor version 2 whose [runtime_data] is
    not set cannot be migrated: [async_migrate_entry] raises AttributeError
    before it changes anything. *)
Theorem migrate_needs_runtime_data (h : HomeAssistant) :
  1 <= VERSION -> version (config_entry h) = 1 ->
  minor_version (config_entry h) < 2 -> runtime_data (config_entry h) = None ->
  migrate_entry h = (inl AttributeError, h).
Proof.
  intros HV Hv Hm Hnone.
  migrate_v1_cases h Hv HV; try lia; try congruence; reflexivity.
Qed.

(** X6.  What a returning migration of a version-1 entry keeps: the entry
    is at the handler's version and minor version, its id, unique id and
    runtime data are as before, every data key other than the access
    token, the refresh token and the password keeps its value, and so does
    every option other than the fuel-consumption unit. *)
Theorem migrate_keeps_other_keys (h h' : HomeAssistant) (b : bool) :
  1 <= VERSION -> version (config_entry h) = 1 ->
  migrate_entry h = (inr b, h') ->
  let e := config_entry h in
  let e' := config_entry h' in
  version e' = VERSION /\ minor_version e' = MINOR_VERSION /\
  entry_id e' = entry_id e /\ unique_id e' = unique_id e /\
  runtime_data e' = runtime_data e /\
  (forall k, k <> CONF_ACCESS_TOKEN -> k <> "refresh_token" -> k <> CONF_PASSWORD ->
             data e' !! k = data e !! k) /\
  (forall k, k <> OPT_FUEL_CONSUMPTION_UNIT -> options e' !! k = options e !! k).
Proof.
  intros HV Hv Hrun e e'.
  apply migrate_v1_returns in Hrun as [_ Hc]; [| assumption ..].
  subst e'. rewrite Hc. fold e. unfold migrated, updated_entry. simpl.
  do 5 (split; [reflexivity |]). split.
  - intros k Hk1 Hk2 Hk3. destruct (minor_version e <? 3); [| reflexivity].
    unfold without_credentials.
    destruct (dict_in CONF_ACCESS_TOKEN (data e) && dict_in "refresh_token" (data e));
      rewrite ?lookup_delete_ne by congruence; reflexivity.
  - intros k Hk. destruct (minor_version e <? 2); [| reflexivity].
    rewrite lookup_insert_ne by congruence. reflexivity.
Qed.

(** X7.  A lone token stays where it is.  On a version-1 entry below
    minor version 3 that does not hold both tokens, the migration makes no
    call to the store manager and leaves whichever token there is in the
    entry's data; it returns True whether or not the entry has a unique
    id. *)
Theorem migrate_lone_token (h : HomeAssistant) :
  let e := config_entry h in
  1 <= VERSION -> version e = 1 -> minor_version e < 3 ->
  data e !! CONF_ACCESS_TOKEN = None \/ data e !! "refresh_token" = None ->
  (minor_version e < 2 -> is_Some (runtime_data e)) ->
  let res := migrate_entry h in
  res.1 = inr true /\ calls res.2 = calls h /\
  data (config_entry res.2) !! CONF_ACCESS_TOKEN = data e !! CONF_ACCESS_TOKEN /\
  data (config_entry res.2) !! "refresh_token" = data e !! "refresh_token".
Proof.
  intros e0 HV Hv Hm Hlone Hrd res. subst res e0.
  migrate_v1_cases h Hv HV; try lia; try (destruct Hlone; congruence);
    try (destruct (Hrd ltac:(assumption)); congruence).
  all: split; [reflexivity |]; split; [reflexivity |].
  all: unfold updated_entry, without_credentials; simpl.
  all: match goal with H : _ && _ = false |- _ => rewrite H end.
  all: split; rewrite lookup_delete_ne by discriminate; reflexivity.
Qed.


(** X8.  Entries with no step to run.  An entry whose version is not 1 is
    never touched: the call returns False above the handler's version and
    True otherwise, the version included being left as it is.  A version-1
    entry at minor version 3 or later only has its version and
    minor_version set to the handler's: data, options, registry and trace
    are as before. *)
Theorem migrate_nothing_to_do (h : HomeAssistant) :
  let e := config_entry h in
  (version e <> 1 ->
   migrate_entry h = (inr (negb (VERSION <? version e)), h)) /\
  (version e = 1 -> 1 <= VERSION -> 3 <= minor_version e ->
   migrate_entry h =
   (inr true,
    with_config_entry
      (updated_entry e (data e) (options e) VERSION MINOR_VERSION) h)).
Proof.
  intros e0. subst e0. split.
  - intros Hv. destruct (Z.ltb_spec VERSION (version (config_entry h))).
    + apply migrate_downgrade. assumption.
    + apply migrate_other_version; assumption.
  - intros Hv HV Hm. migrate_v1_cases h Hv HV; try lia. reflexivity.
Qed.

(** X9.  Effects made before a raise stay.  On a version-1 entry below
    minor version 2 with its runtime data attached, the old entities are
    gone from the registry whatever the outcome of the run, a later
    AssertionError or a failing store call included; in every other case
    the run leaves the registry as it was. *)
Theorem migrate_registry_effect (h : HomeAssistant) :
  let e := config_entry h in
  let res := migrate_entry h in
  (1 <= VERSION -> version e = 1 -> minor_version e < 2 ->
   forall rd, runtime_data e = Some rd ->
   forall id : string,
     id ∈ entity_registry res.2 <->
     id ∈ entity_registry h /\
     forall p key, (p, key) ∈ old_entities ->
                   id <> get_entity_id (coordinator rd) p key) /\
  (VERSION < version e \/ version e <> 1 \/ 2 <= minor_version e \/
   runtime_data e = None ->
   entity_registry res.2 = entity_registry h).
Proof.
  intros e0 res. subst e0 res. split.
  - intros HV Hv Hm rd' Hrd' id.
    rewrite <- elem_of_registry_after_removal.
    migrate_v1_cases h Hv HV; try lia; try congruence;
      replace rd' with rd by congruence; reflexivity.
  - intros Hcase.
    destruct (Z.ltb_spec VERSION (version (config_entry h))) as [Hd | Hle].
    { rewrite migrate_downgrade by assumption. reflexivity. }
    destruct (Z.eq_dec (version (config_entry h)) 1) as [Hv | Hv].
    2: { rewrite migrate_other_version by assumption. reflexivity. }
    assert (1 <= VERSION) as HV by lia.
    migrate_v1_cases h Hv HV; try reflexivity;
      destruct Hcase as [? | [? | [? | ?]]]; try lia; congruence.
Qed.

(** X10.  No token is lost.  On a version-1 entry below minor version 3
    that holds both tokens, whatever the outcome of the run: either the
    entry's data still holds both tokens, or [store.async_update] was
    called with exactly these two values on the store manager of the
    entry's unique id and returned. *)
Theorem migrate_no_token_loss (h : HomeAssistant) (a r : value) :
  let e := config_entry h in
  1 <= VERSION -> version e = 1 -> minor_version e < 3 ->
  data e !! CONF_ACCESS_TOKEN = Some a -> data e !! "refresh_token" = Some r ->
  let res := migrate_entry h in
  (data (config_entry res.2) !! CONF_ACCESS_TOKEN = Some a /\
   data (config_entry res.2) !! "refresh_token" = Some r) \/
  (exists uid,
     unique_id e = Some uid /\
     raises (StoreAsyncUpdate {| store_unique_id := uid |} a r) = None /\
     StoreAsyncUpdate {| store_unique_id := uid |} a r ∈ calls res.2).
Proof.
  intros e0 HV Hv Hm Ha0 Hr0 res. subst e0 res.
  assert (dict_in CONF_ACCESS_TOKEN (data (config_entry h)) &&
          dict_in "refresh_token" (data (config_entry h)) = true) as Hyes.
  { apply andb_true_intro. split; apply dict_in_true; eauto. }
  migrate_v1_cases h Hv HV; try lia; try congruence;
    try (left; split; assumption).
  all: right; eexists; split; [reflexivity |].
  all: match goal with
       | Ha : data _ !! CONF_ACCESS_TOKEN = Some ?a1,
         Hr : data _ !! "refresh_token" = Some ?r1 |- _ =>
           replace a with a1 by congruence; replace r with r1 by congruence
       end.
  all: split; [assumption |].
  all: rewrite !elem_of_app, !list_elem_of_singleton; auto.
Qed.



(** X20.  Only the major version is guarded against a downgrade.  A
    version-1 entry whose minor_version is 3 or more and above the
    handler's MINOR_VERSION is not refused: the run returns True and
    lowers the entry's minor_version to the handler's. *)
Theorem migrate_lowers_minor_version (h : HomeAssistant) :
  let e := config_entry h in
  1 <= VERSION -> version e = 1 ->
  3 <= minor_version e -> MINOR_VERSION < minor_version e ->
  let res := migrate_entry h in
  res.1 = inr true /\
  version (config_entry res.2) = VERSION /\
  minor_version (config_entry res.2) = MINOR_VERSION /\
  minor_version (config_entry res.2) < minor_version e.
Proof.
  intros e0 HV Hv Hm Hlow res. subst e0 res.
  migrate_v1_cases h Hv HV; try lia. simpl. auto.
Qed.

(** *** [_async_reset_request_count_if_missed] *)

Abbreviation check_missed_reset :=
  (_async_reset_request_count_if_missed fromisoformat raises).
Abbreviation setup_entry :=
  (async_setup_entry CONF_VCC_API_KEY CONF_VIN fromisoformat raises
     api_requests_reset_time).

(** What the check of the missed reset does to the instance in any
    outcome: at most the reset call is appended to the trace. *)
Lemma reset_check_state (t : option string) (c : VolvoCarsDataCoordinator)
    (h : HomeAssistant) :
  (check_missed_reset t c h).2 = h \/
  (check_missed_reset t c h).2 = record_call (AsyncResetRequestCount c) h.
Proof.
  unfold _async_reset_request_count_if_missed, call.
  destruct t as [s |]; [| left; reflexivity].
  destruct (String.eqb s ""); [left; reflexivity |].
  run_step. destruct (fromisoformat s) as [dt |]; [| left; reflexivity].
  destruct (datetime_lt dt _) as [x | [|]]; try (left; reflexivity).
  right. destruct (raises _); reflexivity.
Qed.

(** X12.  The check of the missed reset touches nothing but the trace: in
    every outcome the entry, the entity registry and the clock are as
    before, and the trace has grown by nothing or by the one call of the
    coordinator's request-count reset. *)
Theorem reset_check_frame (t : option string) (c : VolvoCarsDataCoordinator)
    (h : HomeAssistant) :
  let h' := (check_missed_reset t c h).2 in
  config_entry h' = config_entry h /\
  entity_registry h' = entity_registry h /\
  utcnow h' = utcnow h /\
  (calls h' = calls h \/ calls h' = calls h ++ [AsyncResetRequestCount c]).
Proof.
  intros h'. subst h'.
  destruct (reset_check_state t c h) as [-> | ->]; simpl; auto.
Qed.

(** X13.  A stored timestamp without a UTC offset is not handled: it
    parses to a naive datetime, the comparison with the aware midnight
    raises TypeError, no reset is invoked, and [async_setup_entry] fails
    with that TypeError when the store holds such a timestamp. *)
Theorem reset_time_without_offset (s : string) (dt : datetime)
    (c : VolvoCarsDataCoordinator) (h : HomeAssistant) :
  s <> "" -> fromisoformat s = Some dt -> tzinfo dt = None ->
  check_missed_reset (Some s) c h = (inl TypeError, h) /\
  forall uid,
    unique_id (config_entry h) = Some uid ->
    api_requests_reset_time {| store_unique_id := uid |} = Some s ->
    (forall c, raises c = None) ->
    (setup_entry h).1 = inl TypeError.
Proof.
  intros Hs Hp Htz.
  split; [apply (reset_if_missed_naive fromisoformat raises s dt); assumption |].
  intros uid Hu Hst Hno. unfold async_setup_entry.
  unfold new_store_manager, store_data_reset_time, set_runtime_data, call.
  run_step. rewrite Hu, !Hno. cbn beta iota. rewrite Hst.
  rewrite (reset_if_missed_naive fromisoformat raises s dt) by assumption.
  reflexivity.
Qed.

(** X14.  The midnight the check compares with is the start of the
    current UTC day: built from a well-formed UTC clock reading it is a
    well-formed UTC datetime, it is not after the reading, and less than a
    day before it. *)
Theorem most_recent_midnight_bounds (now : datetime) :
  valid_datetime now -> tzinfo now = UTC ->
  let midnight := most_recent_midnight now in
  valid_datetime midnight /\ tzinfo midnight = UTC /\
  hour midnight = 0 /\ minute midnight = 0 /\ second midnight = 0 /\
  microsecond midnight = 0 /\
  utc_instant midnight <= utc_instant now < utc_instant midnight + DAY_US.
Proof.
  intros V Htz midnight. subst midnight.
  split; [apply most_recent_midnight_valid; assumption |].
  do 5 (split; [reflexivity |]).
  rewrite most_recent_midnight_instant by assumption.
  unfold utc_midnight_floor.
  pose proof (Z.mod_pos_bound (utc_instant now) DAY_US) as Hb.
  unfold DAY_US in *. lia.
Qed.

(** X15.  For a stamp in UTC only the calendar date matters: when the
    stored timestamp parses to a datetime with offset zero (and time fields
    that are not negative), the reset is invoked exactly when the stamp's
    (year, month, day) is before the clock's, whatever the time of day of
    either. *)
Theorem reset_check_by_date (s : string) (dt : datetime)
    (c : VolvoCarsDataCoordinator) (h : HomeAssistant) :
  s <> "" -> fromisoformat s = Some dt -> tzinfo dt = Some 0 ->
  0 <= hour dt -> 0 <= minute dt -> 0 <= second dt -> 0 <= microsecond dt ->
  let now := utcnow h in
  check_missed_reset (Some s) c h =
  if tuple_lt [year dt; month dt; day dt] [year now; month now; day now]
  then call raises (AsyncResetRequestCount c) h
  else (inr tt, h).
Proof.
  intros Hs Hp Htz Hh Hmi Hse Hus now. subst now.
  unfold _async_reset_request_count_if_missed.
  destruct (String.eqb_spec s "") as [-> | _]; [done |].
  run_step. rewrite Hp. unfold datetime_lt. rewrite Htz.
  unfold most_recent_midnight at 1. simpl tzinfo. unfold UTC.
  destruct (decide (Some 0 = Some 0)) as [_ | N]; [| done].
  cbn beta iota.
  assert (tuple_lt (fields dt) (fields (most_recent_midnight (utcnow h))) =
          tuple_lt [year dt; month dt; day dt]
            [year (utcnow h); month (utcnow h); day (utcnow h)]) as ->.
  { unfold fields, most_recent_midnight. simpl.
    destruct (year dt =? year (utcnow h)); [| reflexivity].
    destruct (month dt =? month (utcnow h)); [| reflexivity].
    destruct (day dt =? day (utcnow h)); [| reflexivity].
    repeat match goal with
           | |- context [?x =? 0] => destruct (Z.eqb_spec x 0)
           | |- context [?x <? 0] => destruct (Z.ltb_spec x 0)
           end; try reflexivity; lia. }
  destruct (tuple_lt _ _); reflexivity.
Qed.


(** *** [async_setup_entry] *)










Lemma raises_only_reset_check (t : option string) (c : VolvoCarsDataCoordinator) :
  raises_only (setup_fault fromisoformat raises t) (check_missed_reset t c).
Proof.
  intros h x h'. unfold _async_reset_request_count_if_missed.
  destruct t as [s |]; [| discriminate].
  destruct (String.eqb_spec s "") as [-> | Hs]; [discriminate |].
  run_step. destruct (fromisoformat s) as [dt |] eqn:Hp.
  - unfold datetime_lt. unfold most_recent_midnight at 1 2. simpl tzinfo.
    unfold UTC. destruct (tzinfo dt) as [off |] eqn:Htz.
    + destruct (decide (Some off = Some 0));
        [destruct (tuple_lt _ _) | destruct (_ <? _)]; try discriminate;
        unfold call; destruct (raises _) eqn:E; intros [= <- _];
        left; eauto.
    + destruct (decide (None = Some 0)); [discriminate |].
      intros [= <- _]. right. exists s. eauto 10.
  - intros [= <- _]. right. exists s. eauto 10.
Qed.

(** X17.  Where a failure of [async_setup_entry] comes from.  It raises
    AssertionError, before doing anything, exactly on an entry without a
    unique id; on an entry with one, every exception is that of a call it
    makes, the ValueError of a stored reset timestamp that does not parse,
    or the TypeError of one that parses to a naive datetime. *)
Theorem setup_failure_sources (h h' : HomeAssistant) (x : exn) :
  setup_entry h = (inl x, h') ->
  (unique_id (config_entry h) = None /\ x = AssertionError /\ h' = h) \/
  (exists uid,
     unique_id (config_entry h) = Some uid /\
     setup_fault fromisoformat raises
       (api_requests_reset_time {| store_unique_id := uid |}) x).
Proof.
  destruct (unique_id (config_entry h)) as [uid |] eqn:Hu.
  - intros Hrun. right. exists uid. split; [reflexivity |]. revert Hrun.
    unfold async_setup_entry.
    unfold mbind at 1, M_bind at 1, gets at 1.
    set (e := config_entry h) in *. clearbody e.
    rewrite Hu. unfold assert_not_none.
    unfold mbind at 1, M_bind at 1, mret at 1, M_ret at 1.
    revert h x h'. unfold set_runtime_data.
    assert (forall c x, raises c = Some x ->
              setup_fault fromisoformat raises
                (api_requests_reset_time {| store_unique_id := uid |}) x) as HP.
    { intros c x E. left. eauto. }
    apply raises_only_new_store_manager; [assumption |].
    repeat first
      [ apply raises_only_ret
      | apply raises_only_modify
      | apply raises_only_call; assumption
      | apply raises_only_reset_check
      | apply raises_only_store_data; [assumption |]
      | apply raises_only_bind; [| intros ?] ].
  - rewrite setup_without_unique_id by assumption.
    intros [= <- <-]. left. auto.
Qed.

Lemma reset_check_returns (t : option string) (c : VolvoCarsDataCoordinator)
    (h : HomeAssistant) :
  (forall c, raises c = None) -> reset_time_well_formed fromisoformat t ->
  check_missed_reset t c h = (inr tt, h) \/
  check_missed_reset t c h = (inr tt, record_call (AsyncResetRequestCount c) h).
Proof.
  intros Hno Hwf. unfold _async_reset_request_count_if_missed.
  destruct t as [s |]; [| left; reflexivity].
  destruct (String.eqb_spec s "") as [-> | Hs]; [left; reflexivity |].
  destruct Hwf as [? | (dt & off & Hp & Htz)]; [done |].
  run_step. rewrite Hp. unfold datetime_lt. rewrite Htz.
  unfold most_recent_midnight at 1 2. simpl tzinfo. unfold UTC, call.
  rewrite Hno.
  destruct (decide (Some off = Some 0));
    [destruct (tuple_lt _ _) | destruct (_ <? _)]; auto.
Qed.

(** X18.  A set-up in which no call fails, on an entry with a unique id
    and a well-formed stored reset timestamp, returns True with the
    runtime data attached (coordinators and store built from the entry id
    and the unique id), and makes its calls in this order: store manager
    created and loaded, API clients, token refresh scheduled, data
    coordinator created, stored timestamp read, the missed reset caught
    up if there is one, first refresh, platforms forwarded, update
    listener registered, and last the reset registered for 00:00:00
    UTC. *)
Theorem setup_success (h : HomeAssistant) (uid : string) :
  (forall c, raises c = None) ->
  unique_id (config_entry h) = Some uid ->
  reset_time_well_formed fromisoformat
    (api_requests_reset_time {| store_unique_id := uid |}) ->
  let e := config_entry h in
  let st := {| store_unique_id := uid |} in
  let tc := {| token_entry_id := entry_id e; token_store := st |} in
  let co := {| coordinator_entry_id := entry_id e; coordinator_store := st |} in
  let res := setup_entry h in
  res.1 = inr true /\
  runtime_data (config_entry res.2) =
    Some {| coordinator := co; token_coordinator := tc; store := st |} /\
  exists caught_up,
    (caught_up = [] \/ caught_up = [AsyncResetRequestCount co]) /\
    calls res.2 =
      calls h ++
      [NewStoreManager uid; StoreAsyncLoad st; AsyncGetClientsession;
       GetSetting CONF_VIN; GetSetting CONF_VCC_API_KEY; NewVolvoCarsApi;
       NewVolvoCarsAuthApi; NewTokenCoordinator tc; AsyncScheduleRefresh tc true;
       NewDataCoordinator co; StoreData st] ++
      caught_up ++
      [AsyncConfigEntryFirstRefresh co; AsyncForwardEntrySetups; AddUpdateListener;
       AsyncOnUnload; AsyncTrackUtcTimeChange co 0 0 0; AsyncOnUnload].
Proof.
  intros Hno Hu Hwf e st tc co res. subst res.
  unfold async_setup_entry.
  unfold new_store_manager, store_data_reset_time, set_runtime_data, call.
  run_step. rewrite Hu, !Hno. cbn beta iota. fold e st tc co.
  match goal with
  | |- context [_async_reset_request_count_if_missed _ _ ?t co ?h1] =>
      destruct (reset_check_returns t co h1 Hno Hwf) as [-> | ->]
  end; rewrite ?Hno; simpl.
  - split; [reflexivity |]. split; [reflexivity |].
    exists []. split; [auto |]. rewrite <- !app_assoc. reflexivity.
  - split; [reflexivity |]. split; [reflexivity |].
    exists [AsyncResetRequestCount co]. split; [auto |].
    rewrite <- !app_assoc. reflexivity.
Qed.

(** X19.  The runtime data is attached before the first refresh: when
    the first refresh of the data coordinator is the call that fails,
    [async_setup_entry] raises its exception, the entry is left with
    [runtime_data] set, and no platform is forwarded nor any listener
    registered. *)
Theorem setup_first_refresh_failure (h : HomeAssistant) (uid : string) (x : exn) :
  let e := config_entry h in
  let st := {| store_unique_id := uid |} in
  let tc := {| token_entry_id := entry_id e; token_store := st |} in
  let co := {| coordinator_entry_id := entry_id e; coordinator_store := st |} in
  unique_id e = Some uid ->
  reset_time_well_formed fromisoformat (api_requests_reset_time st) ->
  raises (AsyncConfigEntryFirstRefresh co) = Some x ->
  (forall c, (forall co', c <> AsyncConfigEntryFirstRefresh co') -> raises c = None) ->
  let res := setup_entry h in
  res.1 = inl x /\
  runtime_data (config_entry res.2) =
    Some {| coordinator := co; token_coordinator := tc; store := st |} /\
  last (calls res.2) = Some (AsyncConfigEntryFirstRefresh co).
Proof.
  intros e st tc co Hu Hwf Hx Hothers res. subst res co tc st e.
  enough (exists h',
            setup_entry h = (inl x, h') /\
            runtime_data (config_entry h') =
              Some {| coordinator :=
                        {| coordinator_entry_id := entry_id (config_entry h);
                           coordinator_store := {| store_unique_id := uid |} |};
                      token_coordinator :=
                        {| token_entry_id := entry_id (config_entry h);
                           token_store := {| store_unique_id := uid |} |};
                      store := {| store_unique_id := uid |} |} /\
            last (calls h') =
              Some (AsyncConfigEntryFirstRefresh
                      {| coordinator_entry_id := entry_id (config_entry h);
                         coordinator_store := {| store_unique_id := uid |} |}))
    as (h' & -> & ? & ?) by auto.
  unfold async_setup_entry.
  unfold new_store_manager, store_data_reset_time, set_runtime_data.
  run_step. rewrite Hu. cbn beta iota.
  unfold call at 1 2 3 4 5 6 7 8 9 10 11.
  rewrite (Hothers (NewStoreManager _)), (Hothers (StoreAsyncLoad _)),
    (Hothers AsyncGetClientsession), (Hothers (GetSetting CONF_VIN)),
    (Hothers (GetSetting CONF_VCC_API_KEY)), (Hothers NewVolvoCarsApi),
    (Hothers NewVolvoCarsAuthApi), (Hothers (NewTokenCoordinator _)),
    (Hothers (AsyncScheduleRefresh _ _)), (Hothers (NewDataCoordinator _)),
    (Hothers (StoreData _)) by (intros ?; discriminate).
  cbn beta iota.
  match goal with
  | |- context [_async_reset_request_count_if_missed _ _ ?t ?co ?h1] =>
      assert (exists h2,
                check_missed_reset t co h1 = (inr tt, h2) /\
                config_entry h2 = config_entry h) as (h2 & -> & Hc)
  end.
  { unfold _async_reset_request_count_if_missed.
    destruct (api_requests_reset_time _) as [s |]; [| eauto].
    destruct (String.eqb_spec s "") as [-> | Hs]; [eauto |].
    destruct Hwf as [? | (dt & off & Hp & Htz)]; [done |].
    run_step. rewrite Hp. unfold datetime_lt. rewrite Htz.
    unfold most_recent_midnight at 1 2. simpl tzinfo. unfold UTC, call.
    rewrite (Hothers (AsyncResetRequestCount _)) by (intros ?; discriminate).
    destruct (decide (Some off = Some 0));
      [destruct (tuple_lt _ _) | destruct (_ <? _)]; eauto. }
  unfold call at 1. rewrite Hx. simpl.
  eexists. split; [reflexivity |]. simpl.
  split; [reflexivity |]. apply last_snoc.
Qed.

End Coverage.

(** * Examples for the further properties *)

(** X3: the entry without a unique id is unchanged by the failed run. *)
Lemma migrate_raise_leaves_entry_witness :
  let h := instance (entry_at 1 2 None credentials None) in
  config_entry (migrate_1_3 h).2 = config_entry h.
Proof.
  intros h.
  apply (migrate_raise_leaves_entry 1 3 "fuel_consumption_unit" "l_100km"
           entity_id_of no_fault h (migrate_1_3 h).2 AssertionError).
  vm_compute. reflexivity.
Defined.

(** X4: the failure of the entry without a unique id is the assertion. *)
Lemma migrate_failure_modes_witness :
  let e := entry_at 1 2 None credentials None in
  version e = 1 /\
  ((AssertionError = AttributeError /\ minor_version e < 2 /\ runtime_data e = None) \/
   (AssertionError = AssertionError /\ minor_version e < 3 /\ unique_id e = None /\
    is_Some (data e !! CONF_ACCESS_TOKEN) /\ is_Some (data e !! "refresh_token")) \/
   (exists uid a r,
      minor_version e < 3 /\ unique_id e = Some uid /\
      data e !! CONF_ACCESS_TOKEN = Some a /\ data e !! "refresh_token" = Some r /\
      (no_fault (NewStoreManager uid) = Some AssertionError \/
       no_fault (StoreAsyncUpdate {| store_unique_id := uid |} a r)
       = Some AssertionError))).
Proof.
  intros e.
  apply (migrate_failure_modes 1 3 "fuel_consumption_unit" "l_100km"
           entity_id_of no_fault (instance e) (migrate_1_3 (instance e)).2
           AssertionError).
  vm_compute. reflexivity.
Defined.

(** X5: a 1.1 entry before set-up. *)
Lemma migrate_needs_runtime_data_witness :
  let h := instance (entry_at 1 1 (Some "YV1XZ") credentials None) in
  migrate_1_3 h = (inl AttributeError, h).
Proof.
  intros h.
  apply (migrate_needs_runtime_data 1 3 "fuel_consumption_unit" "l_100km"
           entity_id_of no_fault h); by_evaluation.
Defined.

(** X6: the VIN survives the migration of a 1.2 entry. *)
Lemma migrate_keeps_other_keys_witness :
  let h := instance (entry_at 1 2 (Some "YV1XZ") credentials None) in
  data (config_entry (migrate_1_3 h).2) !! "vin" = Some (VStr "YV1XZ").
Proof.
  intros h.
  pose proof (migrate_keeps_other_keys 1 3 "fuel_consumption_unit" "l_100km"
                entity_id_of no_fault h (migrate_1_3 h).2 true) as T.
  cbv zeta in T.
  destruct T as (_ & _ & _ & _ & _ & Hdata & _); [by_evaluation .. |].
  transitivity (data (config_entry h) !! "vin");
    [apply (Hdata "vin"); discriminate | reflexivity].
Defined.

(** X7: a 1.2 entry with an access token only, and no unique id. *)
Lemma migrate_lone_token_witness :
  let h := instance (entry_at 1 2 None {[ "access_token" := VStr "at-1" ]} None) in
  (migrate_1_3 h).1 = inr true /\ calls (migrate_1_3 h).2 = [] /\
  data (config_entry (migrate_1_3 h).2) !! CONF_ACCESS_TOKEN = Some (VStr "at-1").
Proof.
  intros h.
  pose proof (migrate_lone_token 1 3 "fuel_consumption_unit" "l_100km"
                entity_id_of no_fault h) as T.
  cbv zeta in T.
  destruct T as (H1 & H2 & H3 & _);
    [by_evaluation | by_evaluation | by_evaluation | right; by_evaluation
    | by_evaluation |].
  split; [exact H1 |]. split; [exact H2 |]. exact H3.
Defined.

(** X8: a version-0 entry under a handler at 1.3 is reported migrated and
    stays at version 0. *)
Lemma migrate_nothing_to_do_witness :
  let h := instance (entry_at 0 1 (Some "YV1XZ") credentials None) in
  migrate_1_3 h = (inr true, h).
Proof.
  intros h.
  apply (proj1 (migrate_nothing_to_do 1 3 "fuel_consumption_unit" "l_100km"
                  entity_id_of no_fault h)).
  by_evaluation.
Defined.

(** X9: the run on a 1.1 entry without a unique id fails on the
    assertion, and the availability sensor is gone all the same. *)
Lemma migrate_registry_effect_witness :
  let h := instance (entry_at 1 1 None credentials (Some attached)) in
  (migrate_1_3 h).1 = inl AssertionError /\
  "binary_sensor.volvo_e1_availability" ∈ entity_registry h /\
  "binary_sensor.volvo_e1_availability" ∉ entity_registry (migrate_1_3 h).2.
Proof.
  intros h. split; [by_evaluation |]. split; [by_evaluation |].
  intros Hin.
  apply (proj1 (migrate_registry_effect 1 3 "fuel_consumption_unit" "l_100km"
                  entity_id_of no_fault h)
           ltac:(lia) eq_refl eq_refl attached eq_refl) in Hin as [_ Hout].
  apply (Hout BINARY_SENSOR "availability"); [apply list_elem_of_here | reflexivity].
Defined.

(** X10: the update fails, and the tokens are still in the entry. *)
Lemma migrate_no_token_loss_witness :
  let raises c :=
    match c with StoreAsyncUpdate _ _ _ => Some (OtherError "OSError") | _ => None end in
  let h := instance (entry_at 1 2 (Some "YV1XZ") credentials None) in
  let res :=
    async_migrate_entry 1 3 "fuel_consumption_unit" "l_100km" entity_id_of raises h in
  (data (config_entry res.2) !! CONF_ACCESS_TOKEN = Some (VStr "at-1") /\
   data (config_entry res.2) !! "refresh_token" = Some (VStr "rt-1")) \/
  (exists uid,
     unique_id (config_entry h) = Some uid /\
     raises (StoreAsyncUpdate {| store_unique_id := uid |} (VStr "at-1") (VStr "rt-1"))
       = None /\
     StoreAsyncUpdate {| store_unique_id := uid |} (VStr "at-1") (VStr "rt-1")
       ∈ calls res.2).
Proof.
  intros raises h res.
  apply (migrate_no_token_loss 1 3 "fuel_consumption_unit" "l_100km"
           entity_id_of raises h (VStr "at-1") (VStr "rt-1")); by_evaluation.
Defined.

(** X13: a stamp without offset. *)
Lemma reset_time_without_offset_witness :
  let h := instance (entry_at 1 3 (Some "YV1XZ") ∅ None) in
  reset_check (Some "2024-11-02T23:59:59") h = (inl TypeError, h) /\
  (setup_with no_fault (Some "2024-11-02T23:59:59") h).1 = inl TypeError.
Proof.
  intros h.
  pose proof (reset_time_without_offset "vcc_api_key" "vin" isoformat_seconds
                no_fault (stored (Some "2024-11-02T23:59:59"))
                "2024-11-02T23:59:59"
                {| year := 2024; month := 11; day := 2; hour := 23; minute := 59;
                   second := 59; microsecond := 0; tzinfo := None |}
                (coordinator attached) h) as [H1 H2]; [by_evaluation .. |].
  split; [exact H1 |]. apply (H2 "YV1XZ"); reflexivity.
Defined.

(** X14: the midnight before 2024-11-03 10:15 UTC. *)
Lemma most_recent_midnight_bounds_witness :
  utc_instant (most_recent_midnight clock) <= utc_instant clock
  < utc_instant (most_recent_midnight clock) + DAY_US.
Proof.
  refine (proj2 (proj2 (proj2 (proj2 (proj2 (proj2
            (most_recent_midnight_bounds clock _ _)))))));
    [valid_by_evaluation | reflexivity].
Defined.

(** X15: stamped late on the day before, and early on the same day. *)
Lemma reset_check_by_date_witness :
  let h := instance (entry_at 1 3 (Some "YV1XZ") ∅ None) in
  reset_check (Some "2024-11-02T23:59:59+00:00") h =
    call no_fault (AsyncResetRequestCount (coordinator attached)) h /\
  reset_check (Some "2024-11-03T00:00:01+00:00") h = (inr tt, h).
Proof.
  intros h. split.
  - refine (reset_check_by_date isoformat_seconds no_fault
              "2024-11-02T23:59:59+00:00"
              {| year := 2024; month := 11; day := 2; hour := 23; minute := 59;
                 second := 59; microsecond := 0; tzinfo := Some 0 |}
              (coordinator attached) h _ _ _ _ _ _ _); by_evaluation.
  - refine (reset_check_by_date isoformat_seconds no_fault
              "2024-11-03T00:00:01+00:00"
              {| year := 2024; month := 11; day := 3; hour := 0; minute := 0;
                 second := 1; microsecond := 0; tzinfo := Some 0 |}
              (coordinator attached) h _ _ _ _ _ _ _); by_evaluation.
Defined.

(** X17: the unparsable stamp is the source of the ValueError. *)
Lemma setup_failure_sources_witness :
  let h := instance (entry_at 1 3 (Some "YV1XZ") ∅ None) in
  (unique_id (config_entry h) = None /\ ValueError = AssertionError /\
   (setup_with no_fault (Some "yesterday") h).2 = h) \/
  (exists uid,
     unique_id (config_entry h) = Some uid /\
     setup_fault isoformat_seconds no_fault
       (stored (Some "yesterday") {| store_unique_id := uid |}) ValueError).
Proof.
  intros h.
  apply (setup_failure_sources "vcc_api_key" "vin" isoformat_seconds no_fault
           (stored (Some "yesterday")) h
           (setup_with no_fault (Some "yesterday") h).2 ValueError).
  vm_compute. reflexivity.
Defined.

(** X18: a first set-up, nothing stored yet. *)
Lemma setup_success_witness :
  let h := instance (entry_at 1 3 (Some "YV1XZ") ∅ None) in
  (setup_with no_fault None h).1 = inr true /\
  is_Some (runtime_data (config_entry (setup_with no_fault None h).2)).
Proof.
  intros h.
  pose proof (setup_success "vcc_api_key" "vin" isoformat_seconds no_fault
                (stored None) h "YV1XZ") as T.
  cbv zeta in T.
  destruct T as (H1 & H2 & _); [by_evaluation | by_evaluation | exact I |].
  split; [exact H1 |]. eexists. exact H2.
Defined.

(** X19: the first refresh raises ConfigEntryNotReady. *)
Lemma setup_first_refresh_failure_witness :
  let h := instance (entry_at 1 3 (Some "YV1XZ") ∅ None) in
  let res := setup_with first_refresh_not_ready None h in
  res.1 = inl (Host ConfigEntryNotReady) /\
  is_Some (runtime_data (config_entry res.2)).
Proof.
  intros h res.
  pose proof (setup_first_refresh_failure "vcc_api_key" "vin" isoformat_seconds
                first_refresh_not_ready (stored None) h "YV1XZ"
                (Host ConfigEntryNotReady)) as T.
  cbv zeta in T.
  destruct T as (H1 & H2 & _);
    [by_evaluation | exact I | by_evaluation | |].
  - intros c Hc. destruct c; try reflexivity. destruct (Hc c eq_refl).
  - split; [exact H1 |]. eexists. exact H2.
Defined.

(** X20: an entry at 1.5 under a handler at 1.3. *)
Lemma migrate_lowers_minor_version_witness :
  let h := instance (entry_at 1 5 (Some "YV1XZ") credentials None) in
  (migrate_1_3 h).1 = inr true /\
  minor_version (config_entry (migrate_1_3 h).2) = 3.
Proof.
  intros h.
  pose proof (migrate_lowers_minor_version 1 3 "fuel_consumption_unit" "l_100km"
                entity_id_of no_fault h) as T.
  cbv zeta in T.
  destruct T as (H1 & _ & H3 & _); [by_evaluation .. |].
  split; [exact H1 | exact H3].
Defined.
